(** * Himawari: event aggregation and dispatch for a convertible laptop

    A shallow embedding of [himawari.py]: the handler classes, the line
    buffering socket wrapper, the three watchers, the process wrapper and
    the dispatch loop of [run], followed by the properties of the
    specification proved (or refuted) on them. *)

From Stdlib Require Import Strings.Byte Ascii String List Bool Arith Lia.
From stdpp Require Import gmap strings list.
Import ListNotations.

Local Open Scope string_scope.
Local Open Scope list_scope.

(** ** Python values, exceptions and the effect monad *)

Abbreviation bytes := (list byte).

(** The exceptions the program can meet. [OtherError] stands for any
    exception raised by a collaborator (socket, bus, queue, ...). *)
Inductive exn : Type :=
| KeyError
| ValueError
| IndexError
| TypeError
| StopIteration
| AttributeError (attr : string)
| RuntimeError (msg : string)
| OSError (argv : list string)
| OtherError (what : string).

(** Values that travel in event argument lists and in log calls. *)
Inductive pyval : Type :=
| PStr (s : string)
| PBytes (b : bytes)
| PExcInfo (e : exn).

(** An event on the message queue: the tuple [(event, args)]. *)
Definition msg : Type := string * list pyval.

Inductive level : Type := DEBUG | INFO | WARNING | ERROR.

(** One call of a logger method. *)
Record log_record : Type := LogRecord {
  lvl : level;
  fmt : string;
  fmt_args : list pyval;
  exc_info : option exn
}.

(** Calls made on the action surface, in the order they are issued. The
    runs of a listing command through [subprocess.check_output] are not
    among them: they change nothing and only their output is used. *)
Inductive action : Type :=
| Call (argv : list string)          (* subprocess.call(argv) *)
| Popen (argv : list string)         (* subprocess.Popen(argv, ...) *)
| Kill (pid : nat).                  (* os.kill(pid, SIGTERM) *)

(** [multiprocessing.Queue] as one process sees it: the items put so far
    and, when [broken] is [Some e], the exception every [put] raises. What
    of the items put reaches the consumer is [delivered], below. *)
Record mqueue : Type := MQueue {
  items : list msg;
  broken : option exn
}.

(** The attributes of a handler object. [onboard] is [None] as long as
    the attribute has never been assigned. *)
Record handler : Type := Handler {
  is_tablet : bool;
  wacom : list string;
  stylus : string;
  finger_touch : string;
  trackpoint : string;
  touchpad : string;
  onboard : option nat
}.

(** Everything a process can observe or change. *)
Record world : Type := World {
  hdl : handler;
  message_queue : mqueue;
  logger : list log_record;
  actions : list action
}.

(** How a piece of code ends: it returns, raises, blocks for ever on an
    external source, or is still running when the fuel is spent. *)
Inductive result (A : Type) : Type :=
| Ret (a : A)
| Raise (e : exn)
| Block
| Fuel.
Arguments Ret {A} a.
Arguments Raise {A} e.
Arguments Block {A}.
Arguments Fuel {A}.

Definition M (A : Type) : Type := world -> world * result A.

Definition ret {A} (a : A) : M A := fun w => (w, Ret a).
Definition raise {A} (e : exn) : M A := fun w => (w, Raise e).

Definition bind {A B} (m : M A) (f : A -> M B) : M B := fun w =>
  match m w with
  | (w', Ret a) => f a w'
  | (w', Raise e) => (w', Raise e)
  | (w', Block) => (w', Block)
  | (w', Fuel) => (w', Fuel)
  end.

(** [try: m except: h] with a bare [except], which catches everything
    that is raised. *)
Definition try_except {A} (m : M A) (h : exn -> M A) : M A := fun w =>
  match m w with
  | (w', Raise e) => h e w'
  | r => r
  end.

Declare Scope py_scope.
Delimit Scope py_scope with py.
Notation "x <- m ;; k" := (bind m (fun x => k))
  (at level 100, m at next level, right associativity) : py_scope.
Notation "m ;; k" := (bind m (fun _ => k))
  (at level 100, right associativity) : py_scope.
Local Open Scope py_scope.

(** [for x in l: body x] *)
Fixpoint for_each {A} (l : list A) (body : A -> M unit) : M unit :=
  match l with
  | [] => ret tt
  | x :: l' => body x ;; for_each l' body
  end.

Definition get_self : M handler := fun w => (w, Ret (hdl w)).

Definition set_self (h : handler) : M unit := fun w =>
  (World h (message_queue w) (logger w) (actions w), Ret tt).

(** [self.is_tablet = b] *)
Definition set_is_tablet (b : bool) : M unit :=
  self <- get_self ;;
  set_self (Handler b (wacom self) (stylus self) (finger_touch self)
              (trackpoint self) (touchpad self) (onboard self)).

(** [self.onboard = p], [p] the handle of a started process. *)
Definition set_onboard (pid : nat) : M unit :=
  self <- get_self ;;
  set_self (Handler (is_tablet self) (wacom self) (stylus self)
              (finger_touch self) (trackpoint self) (touchpad self)
              (Some pid)).

Definition log (l : level) (f : string) (args : list pyval)
    (ei : option exn) : M unit := fun w =>
  (World (hdl w) (message_queue w) (logger w ++ [LogRecord l f args ei])
     (actions w), Ret tt).

Definition issue (a : action) : M unit := fun w =>
  (World (hdl w) (message_queue w) (logger w) (actions w ++ [a]), Ret tt).

(** [message_queue.put(m)]: the item joins the buffer of the queue and
    the call returns. Pickling is not done here but afterwards, by the
    feeder thread of the queue: see [delivered]. *)
Definition put (m : msg) : M unit := fun w =>
  match broken (message_queue w) with
  | Some e => (w, Raise e)
  | None =>
      (World (hdl w) (MQueue (items (message_queue w) ++ [m]) None)
         (logger w) (actions w), Ret tt)
  end.

(** The collaborators behind [subprocess] and [os]: whether a command can
    be run at all, which process a launch produces, whether a signal can
    be delivered, what a command prints (decoded) and the lines a child
    writes to its pipe before it closes it. *)
Record env : Type := Env {
  call_raises : list string -> option exn;
  popen_result : list string -> exn + nat;
  kill_raises : nat -> option exn;
  check_output : list string -> exn + string;
  popen_stdout : list string -> list bytes
}.

(** ** The handler classes *)

(** [subprocess.call(argv)]: the command is issued; the call raises when
    the program cannot be executed. Its exit status is not looked at. The
    command is taken to exit: one that never does has no counterpart
    here. *)
Definition subprocess_call (E : env) (argv : list string) : M unit :=
  issue (Call argv) ;;
  match call_raises E argv with
  | Some e => raise e
  | None => ret tt
  end.

(** [subprocess.Popen(argv, ...)], returning the pid of the child. *)
Definition subprocess_Popen (E : env) (argv : list string) : M nat :=
  issue (Popen argv) ;;
  match popen_result E argv with
  | inl e => raise e
  | inr pid => ret pid
  end.

(** [os.kill(pid, signal.SIGTERM)] *)
Definition os_kill (E : env) (pid : nat) : M unit :=
  issue (Kill pid) ;;
  match kill_raises E pid with
  | Some e => raise e
  | None => ret tt
  end.

(** [d[k]] on a dict with string keys; any other key is absent. *)
Definition dict_get (d : gmap string string) (k : pyval) : M string :=
  match k with
  | PStr s =>
      match d !! s with
      | Some v => ret v
      | None => raise KeyError
      end
  | _ => raise KeyError
  end.

Module BasicEventHandler.

(** [__init__], after [initialize] has found the devices. *)
Definition init (wac : list string) (sty ft tp pad : string) : handler :=
  Handler false wac sty ft tp pad None.

(** [on_mode_change], with the two methods a subclass overrides. *)
Definition on_mode_change (on_tablet_mode on_laptop_mode : M unit)
    : M unit :=
  self <- get_self ;;
  set_is_tablet (negb (is_tablet self)) ;;
  self <- get_self ;;
  if is_tablet self then on_tablet_mode else on_laptop_mode.

(** [raise NotImplemented()]: calling the constant is a TypeError. *)
Definition on_tablet_mode : M unit := raise TypeError.
Definition on_laptop_mode : M unit := raise TypeError.
Definition on_rotate (orientation : pyval) : M unit := raise TypeError.
Definition on_stylus_event (status : pyval) : M unit := raise TypeError.

End BasicEventHandler.

Module DefaultEventHandler.

Definition xrandr_orientation_map : gmap string string :=
  <["right-up" := "right"]> (<["normal" := "normal"]>
  (<["bottom-up" := "inverted"]> (<["left-up" := "left"]> ∅))).

Definition wacom_orientation_map : gmap string string :=
  <["right-up" := "cw"]> (<["normal" := "none"]>
  (<["bottom-up" := "half"]> (<["left-up" := "ccw"]> ∅))).

Section Methods.
Variable E : env.

Definition on_tablet_mode : M unit :=
  log DEBUG "on tablet mode" [] None ;;
  self <- get_self ;;
  for_each [trackpoint self; touchpad self]
    (fun i => subprocess_call E ["xinput"; "disable"; i]) ;;
  try_except
    (pid <- subprocess_Popen E ["nohup"; "onboard"] ;;
     set_onboard pid)
    (fun e => log WARNING "exception while starting onboard: " []
                (Some e)).

Definition on_laptop_mode : M unit :=
  log DEBUG "on laptop mode" [] None ;;
  self <- get_self ;;
  for_each [trackpoint self; touchpad self]
    (fun i => subprocess_call E ["xinput"; "enable"; i]) ;;
  try_except
    (self <- get_self ;;
     match onboard self with
     | None => raise (AttributeError "onboard")
     | Some pid => os_kill E pid
     end)
    (fun e => log WARNING "exception while terminating onboard: " []
                (Some e)).

Definition on_rotate (orientation : pyval) : M unit :=
  log DEBUG "on rotate: %s" [orientation] None ;;
  x <- dict_get xrandr_orientation_map orientation ;;
  subprocess_call E ["xrandr"; "-o"; x] ;;
  self <- get_self ;;
  for_each (wacom self)
    (fun i =>
       y <- dict_get wacom_orientation_map orientation ;;
       subprocess_call E ["xsetwacom"; "--set"; i; "rotate"; y]).

Definition on_stylus_event (status : pyval) : M unit :=
  log DEBUG "on stylus event: %s" [status] None.

Definition on_mode_change : M unit :=
  BasicEventHandler.on_mode_change on_tablet_mode on_laptop_mode.

End Methods.

End DefaultEventHandler.

(** What [run] needs of the class it is given. *)
Record handler_type : Type := HandlerType {
  call_on_mode_change : M unit;
  call_on_rotate : pyval -> M unit;
  call_on_stylus_event : pyval -> M unit
}.

Definition basic_handler : handler_type :=
  HandlerType
    (BasicEventHandler.on_mode_change BasicEventHandler.on_tablet_mode
       BasicEventHandler.on_laptop_mode)
    BasicEventHandler.on_rotate BasicEventHandler.on_stylus_event.

Definition default_handler (E : env) : handler_type :=
  HandlerType (DefaultEventHandler.on_mode_change E)
    (DefaultEventHandler.on_rotate E)
    (DefaultEventHandler.on_stylus_event).

(** ** Byte strings and strings *)

Definition nl : byte := x0a.
Definition sp : byte := x20.

Definition EV_TABLET_MODE : bytes := list_byte_of_string " 40D1BF71-A82D-4E".

(** [c in b] for a one-byte needle [c]. *)
Definition bytes_in (c : byte) (b : bytes) : bool :=
  existsb (fun x => Byte.eqb x c) b.

(** [b.startswith(p)] *)
Fixpoint startswith (p b : bytes) : bool :=
  match p, b with
  | [], _ => true
  | _ :: _, [] => false
  | x :: p', y :: b' => Byte.eqb x y && startswith p' b'
  end.

Definition may_split (maxsplit : option nat) : bool :=
  match maxsplit with
  | Some 0 => false
  | _ => true
  end.

(** [b.split(sep, maxsplit)] for a one-byte separator; [None] is the
    default, no limit. The result always has at least one piece. *)
Fixpoint bytes_split (sep : byte) (maxsplit : option nat) (b : bytes)
    : list bytes :=
  match b with
  | [] => [[]]
  | c :: r =>
      if Byte.eqb c sep && may_split maxsplit
      then [] :: bytes_split sep (Nat.pred <$> maxsplit) r
      else match bytes_split sep maxsplit r with
           | p :: ps => (c :: p) :: ps
           | [] => [[c]]
           end
  end.

(** [needle in hay] on strings. *)
Fixpoint str_in (needle hay : string) : bool :=
  if String.prefix needle hay then true
  else match hay with
       | EmptyString => false
       | String _ hay' => str_in needle hay'
       end.

(** [s.split(sep)] for a one-character separator. *)
Fixpoint str_split (sep : ascii) (s : string) : list string :=
  match s with
  | EmptyString => [EmptyString]
  | String c r =>
      if Ascii.eqb c sep then EmptyString :: str_split sep r
      else match str_split sep r with
           | p :: ps => String c p :: ps
           | [] => [String c EmptyString]
           end
  end.

(** ** The socket wrapper *)

(** What one call of [recv] does: it hands over some bytes (none once the
    peer has closed), waits for ever, or raises. *)
Inductive recv_result (S : Type) : Type :=
| RecvData (d : bytes) (s : S)
| RecvBlock
| RecvRaise (e : exn).
Arguments RecvData {S} d s.
Arguments RecvBlock {S}.
Arguments RecvRaise {S} e.

(** Anything with a [recv(bufsize)] method. *)
Class Socket (S : Type) : Type :=
  recv : S -> N -> recv_result S.

Record SocketWrapper (S : Type) : Type := MkSocketWrapper {
  buffer : bytes;
  sock : S
}.
Arguments MkSocketWrapper {S} buffer sock.
Arguments buffer {S} s.
Arguments sock {S} s.

Section ReadLine.
Context {S : Type} `{Socket S}.

(** [SocketWrapper.read_line]; one unit of fuel per call of [recv]. *)
Fixpoint read_line (fuel : nat) (self : SocketWrapper S)
    : SocketWrapper S * result bytes :=
  if bytes_in nl (buffer self) then
    match bytes_split nl (Some 1) (buffer self) with
    | [line; rest] => (MkSocketWrapper rest (sock self), Ret line)
    | _ => (self, Raise ValueError)
    end
  else
    match fuel with
    | 0 => (self, Fuel)
    | Datatypes.S fuel' =>
        match recv (sock self) 4096%N with
        | RecvData d s' =>
            read_line fuel' (MkSocketWrapper (buffer self ++ d) s')
        | RecvBlock => (self, Block)
        | RecvRaise e => (self, Raise e)
        end
    end.

(** The body of the watcher's loop, once a record has been read. *)
Definition acpi_event (event : bytes) : M unit :=
  log DEBUG "acpid event: %s" [PBytes event] None ;;
  if startswith EV_TABLET_MODE event then
    log DEBUG "mode change event" [] None ;;
    put ("mode-change", [])
  else ret tt.

(** The [while True] loop of [acpi_events_watcher]: [n] bounds the
    records read, [fuel] the calls of [recv] for each of them. *)
Fixpoint acpi_events_loop (fuel n : nat) (acpi_socket : SocketWrapper S)
    : M unit :=
  match n with
  | 0 => fun w => (w, Fuel)
  | Datatypes.S n' =>
      match read_line fuel acpi_socket with
      | (acpi_socket', Ret event) =>
          acpi_event event ;; acpi_events_loop fuel n' acpi_socket'
      | (_, Raise e) => raise e
      | (_, Block) => fun w => (w, Block)
      | (_, Fuel) => fun w => (w, Fuel)
      end
  end.

(** [acpi_events_watcher]; [connected] is what creating and connecting
    the socket gives. *)
Definition acpi_events_watcher (fuel : nat) (connected : exn + S)
    : M unit :=
  match connected with
  | inl e => raise e
  | inr s => acpi_events_loop fuel fuel (MkSocketWrapper [] s)
  end.

End ReadLine.

(** A socket that plays a script: the chunks successive calls of [recv]
    return; when they are used up [recv] waits for ever if the peer is
    still there, and returns the empty byte string if it has closed. *)
Record scripted : Type := Scripted {
  chunks : list bytes;
  closed : bool
}.

#[export] Instance scripted_socket : Socket scripted := fun s _ =>
  match chunks s with
  | c :: cs => RecvData c (Scripted cs (closed s))
  | [] => if closed s then RecvData [] s else RecvBlock
  end.

(** ** The other two watchers *)

(** [sensor_proxy_signal_handler], the callback of the bus watcher. *)
Definition sensor_proxy_signal_handler (source : pyval)
    (changedProperties : gmap string pyval)
    (invalidatedProperties : list pyval) : M unit :=
  match changedProperties !! "AccelerometerOrientation" with
  | None => ret tt
  | Some orientation =>
      log DEBUG "dbus signal: orientation change: %s" [orientation] None ;;
      put ("rotate", [orientation])
  end.

(** The body of the [for line in xinput_pipe.stdout] loop. *)
Definition stylus_line (line : bytes) : M unit :=
  log DEBUG "xinput stdout: %s" [PBytes line] None ;;
  if negb (startswith (list_byte_of_string "proximity") line) then ret tt
  else
    match bytes_split sp None line !! 1 with
    | None => raise IndexError
    | Some status => put ("stylus-event", [PBytes status])
    end.

(** [next(x for x in lines if "stylus" in x)] *)
Definition next_stylus (lines : list string) : M string :=
  match List.find (str_in "stylus") lines with
  | Some x => ret x
  | None => raise StopIteration
  end.

(** [stylus_events_watcher]. The device listing comes from
    [check_output]; that run of [xinput --list] is not recorded among the
    actions, the proximity test started with [Popen] is. *)
Definition stylus_events_watcher (E : env) : M unit :=
  match check_output E ["xinput"; "--list"; "--name-only"] with
  | inl e => raise e
  | inr out =>
      let lines := str_split "010"%char out in
      stylus <- try_except (next_stylus lines)
                  (fun _ => raise (RuntimeError "stylus not found")) ;;
      log INFO "found stylus %s" [PStr stylus] None ;;
      let argv := ["xinput"; "test"; "-proximity"; stylus] in
      _ <- subprocess_Popen E argv ;;
      for_each (popen_stdout E argv) stylus_line
  end.

(** ** The process wrapper *)

(** A target is called with positional and keyword arguments. *)
Definition target_type : Type :=
  list pyval -> gmap string pyval -> M unit.

Definition exit_msg (name : string) (e : exn) : msg :=
  ("exit", [PStr name; PStr "uncaught-exception"; PExcInfo e]).

Definition process_wrapper (name : string) (target : target_type)
    (argtuple : list pyval * gmap string pyval) : M unit :=
  log INFO "%s started" [PStr name] None ;;
  let '(args, kwargs) := argtuple in
  try_except (target args kwargs)
    (fun e =>
       log ERROR "uncaught exception from process %s:" [] (Some e) ;;
       try_except (put (exit_msg name e)) (fun _ => ret tt)).

(** What the process started by [spawn_process] runs. *)
Definition spawn_process (name : string) (target : target_type)
    (args : list pyval) (kwargs : gmap string pyval) : M unit :=
  process_wrapper name target (args, kwargs).

(** ** The dispatcher *)

(** [message_queue.get()]: the oldest item, or wait for one. *)
Definition get : M msg := fun w =>
  match items (message_queue w) with
  | [] => (w, Block)
  | m :: q =>
      (World (hdl w) (MQueue q (broken (message_queue w))) (logger w)
         (actions w), Ret m)
  end.

(** One turn of the [while True] loop of [run], after the [get]. *)
Definition dispatch (H : handler_type) (m : msg) : M unit :=
  let '(event, args) := m in
  log DEBUG "received event %s" [PStr event] None ;;
  if String.eqb event "exit" then
    match args with
    | name :: reason :: _ =>
        log INFO "received child exit event from %s caused by %s"
          [name; reason] None
    | _ => raise ValueError
    end
  else if String.eqb event "mode-change" then
    call_on_mode_change H
  else if String.eqb event "rotate" then
    match args with
    | [orientation] => call_on_rotate H orientation
    | _ => raise ValueError
    end
  else if String.eqb event "stylus-event" then
    match args with
    | [status] => call_on_stylus_event H status
    | _ => raise ValueError
    end
  else ret tt.

(** The loop of [run]; one unit of fuel per event. *)
Fixpoint run_loop (H : handler_type) (fuel : nat) : M unit :=
  match fuel with
  | 0 => fun w => (w, Fuel)
  | S fuel' => m <- get ;; dispatch H m ;; run_loop H fuel'
  end.

(** The world [run] builds before it enters the loop: a fresh logger and
    queue, and the handler just constructed. *)
Definition run_init (h : handler) : world :=
  World h (MQueue [] None) [] [].

(** The same with [q] already delivered to the queue. *)
Definition run_with (h : handler) (q : list msg) : world :=
  World h (MQueue q None) [] [].

(** ** The event queue between processes *)

Module EventQueue.

(** Modelled from the spec: the implementation of [multiprocessing.Queue],
    which is library code the program only instantiates. Following
    sections 3 and 4.1 of the specification, a push never blocks its
    producer and the pushes of one producer arrive in the order they
    were made, the arrivals of different producers interleave by arrival
    time only, and a pop takes the oldest arrival. So every producer has
    its own buffer of pushes still under way, [arrived] is the one
    ordered sequence the consumer pops from, and [popped] records what
    the dispatcher has received, oldest first. Items carry the name of
    their producer. *)
Record state : Type := State {
  pending : gmap string (list msg);
  arrived : list (string * msg);
  popped : list (string * msg)
}.

Definition init : state := State ∅ [] [].

Definition pending_of (p : string) (s : state) : list msg :=
  default [] (pending s !! p).

(** What can happen next: producer [p] pushes [m], the oldest push of [p]
    still under way arrives, or the consumer pops. *)
Inductive op : Type :=
| Push (p : string) (m : msg)
| Arrive (p : string)
| Pop.

(** Modelled from the spec: one step of the queue, the implementation of
    which is not part of the program. A push joins the pushes of its
    producer that are under way, an arrival moves the oldest of them to
    the end of the arrival sequence, a pop takes the front of that
    sequence. An [Arrive] with nothing under way and a [Pop] with nothing
    arrived (the consumer waits) leave the state as it is. *)
Definition step (s : state) (o : op) : state :=
  match o with
  | Push p m =>
      State (<[p := pending_of p s ++ [m]]> (pending s)) (arrived s)
        (popped s)
  | Arrive p =>
      match pending_of p s with
      | [] => s
      | m :: ms =>
          State (<[p := ms]> (pending s)) (arrived s ++ [(p, m)])
            (popped s)
      end
  | Pop =>
      match arrived s with
      | [] => s
      | x :: xs => State (pending s) xs (popped s ++ [x])
      end
  end.

Definition exec (ops : list op) : state := fold_left step ops init.

(** The items of producer [p] in a sequence of tagged items. *)
Fixpoint from (p : string) (l : list (string * msg)) : list msg :=
  match l with
  | [] => []
  | (q, m) :: l' => if String.eqb q p then m :: from p l' else from p l'
  end.

(** What [p] pushed in a schedule, in the order of its pushes. *)
Fixpoint pushes (p : string) (ops : list op) : list msg :=
  match ops with
  | [] => []
  | Push q m :: ops' =>
      if String.eqb q p then m :: pushes p ops' else pushes p ops'
  | _ :: ops' => pushes p ops'
  end.

End EventQueue.

(** ** What the specification says, in its own words *)

(** The complete records of a byte stream: the stream cut at every
    newline, without the unfinished piece after the last newline. *)
Fixpoint complete_records (stream : bytes) : list bytes :=
  match stream with
  | [] => []
  | c :: r =>
      if Byte.eqb c nl then [] :: complete_records r
      else match complete_records r with
           | [] => []
           | l :: ls => (c :: l) :: ls
           end
  end.

(** One [ModeChange] for each complete record with the prefix. *)
Definition mode_changes (stream : bytes) : list msg :=
  map (fun _ => ("mode-change", []))
    (List.filter (startswith EV_TABLET_MODE) (complete_records stream)).

(** The world after [n] calls of a method, however each call ends. *)
Definition after (n : nat) (m : M unit) (w : world) : world :=
  Nat.iter n (fun w => fst (m w)) w.

(** ** Vocabulary of the statements and sample inputs *)

(** DeviceMode: [false] is Laptop, [true] is Tablet. *)
Definition mode_of (w : world) : bool := is_tablet (hdl w).

(** The two tables of the specification, side by side: orientation, value
    for the display, value for a stylus-class device. *)
Definition orientation_table : list (string * string * string) :=
  [("right-up", "right", "cw"); ("normal", "normal", "none");
   ("bottom-up", "inverted", "half"); ("left-up", "left", "ccw")].

(** The commands a rotation issues: one for the display, then one for
    every stylus-class device. *)
Definition rotate_commands (x y : string) (wac : list string)
    : list (list string) :=
  ["xrandr"; "-o"; x] ::
  map (fun i => ["xsetwacom"; "--set"; i; "rotate"; y]) wac.

(** A system where every command can be executed. *)
Definition quiet_env : env :=
  Env (fun _ => None) (fun _ => inr 4242) (fun _ => None)
    (fun _ => inr "Wacom Pen stylus") (fun _ => []).

(** A handler as [__init__] leaves it on a convertible with two
    stylus-class devices. *)
Definition sample_handler : handler :=
  BasicEventHandler.init ["Wacom Pen stylus"; "Wacom Pen eraser"]
    "Wacom Pen stylus" "Wacom Finger touch" "TPPS/2 TrackPoint"
    "SynPS/2 TouchPad".

(** The two commands [on_laptop_mode] starts with. *)
Definition enable_commands (h : handler) : list (list string) :=
  [["xinput"; "enable"; trackpoint h]; ["xinput"; "enable"; touchpad h]].

(** What the termination step does on the action surface, and the error
    it meets, if any: without a handle nothing is sent. *)
Definition termination_actions (h : handler) : list action :=
  match onboard h with
  | None => []
  | Some pid => [Kill pid]
  end.

Definition termination_error (E : env) (h : handler) : option exn :=
  match onboard h with
  | None => Some (AttributeError "onboard")
  | Some pid => kill_raises E pid
  end.

Definition termination_log (E : env) (h : handler) : list log_record :=
  match termination_error E h with
  | None => []
  | Some e =>
      [LogRecord WARNING "exception while terminating onboard: " []
         (Some e)]
  end.

Definition is_kill (a : action) : bool :=
  match a with
  | Kill _ => true
  | _ => false
  end.

(** A record with the prefix cut in the middle by the reads, a record
    without it, and an unfinished record with it. *)
Definition sample_chunks : list bytes :=
  map list_byte_of_string
    [" 40D1BF"; "71-A82D-4E 000000"; String "010"%char "button/power PBTN";
     String "010"%char " 40D1BF71-A8"].

(** The peer has closed the connection and everything it sent has been
    read. *)
Definition closed_socket : scripted := Scripted [] true.

(** A system without a stylus: the proximity watcher fails at once. *)
Definition no_stylus_env : env :=
  Env (fun _ => None) (fun _ => inr 4242) (fun _ => None)
    (fun _ => inr "Virtual core pointer") (fun _ => []).

(** The on-screen keyboard cannot be started. *)
Definition launch_fails_env : env :=
  Env (fun _ => None) (fun _ => inl (OSError ["nohup"; "onboard"]))
    (fun _ => None) (fun _ => inr "Wacom Pen stylus") (fun _ => []).

(** The claim of the specification: with events [q] on the queue, the loop
    pops every one of them, whatever the handler does with each. *)
Definition dispatcher_survives (H : handler_type) : Prop :=
  forall (h : handler) (q : list msg) (fuel : nat),
    length q < fuel ->
    items (message_queue (fst (run_loop H fuel (run_with h q)))) = [].

(** An orientation the sensor reports and the tables do not have, then a
    mode change. *)
Definition undefined_then_mode_change : list msg :=
  [("rotate", [PStr "undefined"]); ("mode-change", [])].

(** Everything of producer [p] that is in the queue or has left it:
    popped, arrived, under way. *)
Definition history (p : string) (s : EventQueue.state) : list msg :=
  EventQueue.from p (EventQueue.popped s) ++
  EventQueue.from p (EventQueue.arrived s) ++
  EventQueue.pending_of p s.

(** ** Construction of the default handler *)

Definition tab_char : ascii := "009"%char.
Definition newline_char : ascii := "010"%char.

(** [bool(x)] on a string. *)
Definition nonempty (x : string) : bool :=
  match x with
  | EmptyString => false
  | String _ _ => true
  end.

(** [[f(i) for i in l]] *)
Fixpoint list_comp {A B} (f : A -> M B) (l : list A) : M (list B) :=
  match l with
  | [] => ret []
  | i :: l' => x <- f i ;; xs <- list_comp f l' ;; ret (x :: xs)
  end.

(** [i.split('\t')[0]] *)
Definition first_field (i : string) : M string :=
  match str_split tab_char i !! 0 with
  | Some x => ret x
  | None => raise IndexError
  end.

(** [next(filter(lambda x: pat in x, lines))] *)
Definition next_containing (pat : string) (lines : list string)
    : M string :=
  match List.find (str_in pat) lines with
  | Some x => ret x
  | None => raise StopIteration
  end.

Definition set_wacom (v : list string) : M unit :=
  self <- get_self ;;
  set_self (Handler (is_tablet self) v (stylus self) (finger_touch self)
              (trackpoint self) (touchpad self) (onboard self)).

Definition set_stylus (v : string) : M unit :=
  self <- get_self ;;
  set_self (Handler (is_tablet self) (wacom self) v (finger_touch self)
              (trackpoint self) (touchpad self) (onboard self)).

Definition set_finger_touch (v : string) : M unit :=
  self <- get_self ;;
  set_self (Handler (is_tablet self) (wacom self) (stylus self) v
              (trackpoint self) (touchpad self) (onboard self)).

Definition set_trackpoint (v : string) : M unit :=
  self <- get_self ;;
  set_self (Handler (is_tablet self) (wacom self) (stylus self)
              (finger_touch self) v (touchpad self) (onboard self)).

Definition set_touchpad (v : string) : M unit :=
  self <- get_self ;;
  set_self (Handler (is_tablet self) (wacom self) (stylus self)
              (finger_touch self) (trackpoint self) v (onboard self)).

Definition xsetwacom_list : list string := ["xsetwacom"; "--list"; "devices"].
Definition xinput_list : list string := ["xinput"; "--list"; "--name-only"].

(** [DefaultEventHandler.initialize]. The output of a command is taken
    decoded, so the lines are cut on the decoded text. *)
Definition initialize (E : env) : M unit :=
  match check_output E xsetwacom_list with
  | inl e => raise e
  | inr out =>
      wac <- list_comp first_field
               (List.filter nonempty (str_split newline_char out)) ;;
      set_wacom wac ;;
      self <- get_self ;;
      for_each (wacom self)
        (fun i => log INFO "Wacom device detected: %s" [PStr i] None) ;;
      match check_output E xinput_list with
      | inl e => raise e
      | inr out2 =>
          let xinput := str_split newline_char out2 in
          x <- next_containing "stylus" xinput ;; set_stylus x ;;
          x <- next_containing "Finger touch" xinput ;;
          set_finger_touch x ;;
          x <- next_containing "TrackPoint" xinput ;; set_trackpoint x ;;
          x <- next_containing "TouchPad" xinput ;; set_touchpad x ;;
          self <- get_self ;;
          log INFO
            "xinput devices detected: stylus = %s, finger touch = %s, trackpoint = %s, touchpad = %s"
            [PStr (stylus self); PStr (finger_touch self);
             PStr (trackpoint self); PStr (touchpad self)] None
      end
  end.

(** [BasicEventHandler.__init__] on a default handler: [initialize], then
    the mode is set to laptop. *)
Definition __init__ (E : env) : M unit :=
  initialize E ;;
  set_is_tablet false.

(** ** Sockets that end *)

(** What a socket does once the bytes under way have been read: it waits
    for more, it reports the end of the stream, or it fails. *)
Inductive ending : Type :=
| Waits
| Eof
| Fails (e : exn).

Record stream_socket : Type := StreamSocket {
  incoming : list bytes;
  ending_of : ending
}.

#[export] Instance stream_socket_recv : Socket stream_socket := fun s _ =>
  match incoming s with
  | c :: cs => RecvData c (StreamSocket cs (ending_of s))
  | [] =>
      match ending_of s with
      | Waits => RecvBlock
      | Eof => RecvData [] s
      | Fails e => RecvRaise e
      end
  end.

Definition ending_result (en : ending) : result unit :=
  match en with
  | Waits => Block
  | Eof => Fuel
  | Fails e => Raise e
  end.

(** ** More vocabulary *)

(** Whether [pickle] can serialise a value. Strings and byte strings can
    be pickled; the tuple of [sys.exc_info()] cannot, because its third
    component is a traceback object. *)
Definition picklable (v : pyval) : bool :=
  match v with
  | PStr _ | PBytes _ => true
  | PExcInfo _ => false
  end.

Definition picklable_msg (m : msg) : bool := forallb picklable (snd m).

(** What the consumer of a queue can receive with [get]. The feeder thread
    of [multiprocessing.Queue] pickles the buffered items in order and
    writes them to the pipe; an item it cannot pickle is dropped there,
    after [put] has returned, with a traceback on standard error. *)
Definition delivered (q : mqueue) : list msg :=
  List.filter picklable_msg (items q).

Definition disable_commands (h : handler) : list (list string) :=
  [["xinput"; "disable"; trackpoint h]; ["xinput"; "disable"; touchpad h]].

Definition onboard_command : list string := ["nohup"; "onboard"].

Definition event_names : list string :=
  ["exit"; "mode-change"; "rotate"; "stylus-event"].

Definition is_exit (m : msg) : bool :=
  match m with
  | (event, _ :: _ :: _) => String.eqb event "exit"
  | _ => false
  end.

(** The two log calls the dispatcher makes for an exit event. *)
Definition exit_log (m : msg) : list log_record :=
  match m with
  | (event, name :: reason :: _) =>
      [LogRecord DEBUG "received event %s" [PStr event] None;
       LogRecord INFO "received child exit event from %s caused by %s"
         [name; reason] None]
  | _ => []
  end.

Definition unlines (l : list string) : string :=
  String.concat (String newline_char EmptyString) l.

(** A convertible with a digitizer, a trackpoint and a touchpad. *)
Definition convertible_env : env :=
  Env (fun _ => None) (fun _ => inr 4242) (fun _ => None)
    (fun argv =>
       if decide (argv = xsetwacom_list) then
         inr (unlines
                [String.concat (String tab_char EmptyString)
                   ["Wacom Pen stylus"; "id: 10"; "type: STYLUS"];
                 String.concat (String tab_char EmptyString)
                   ["Wacom Pen eraser"; "id: 11"; "type: ERASER"];
                 ""])
       else
         inr (unlines
                ["Virtual core pointer"; "Wacom Pen stylus";
                 "Wacom Finger touch"; "TPPS/2 TrackPoint";
                 "SynPS/2 TouchPad"; ""]))
    (fun _ => map list_byte_of_string
                ["proximity in  a[0]=1"; "motion a[0]=2"; "proximity out "]).

(** The token a proximity line starts with. *)
Definition proximity_token : bytes := list_byte_of_string "proximity".

(** The first tab-separated field of every non-empty line of a listing. *)
Definition wacom_fields (out : string) : list string :=
  map (fun i => hd EmptyString (str_split tab_char i))
    (List.filter nonempty (str_split newline_char out)).

(** The patterns by which [initialize] looks for its four devices. *)
Definition device_patterns : list string :=
  ["stylus"; "Finger touch"; "TrackPoint"; "TouchPad"].

(** The object before [__init__] has assigned anything. *)
Definition blank_handler : handler := Handler false [] "" "" "" "" None.

(** ** Frame properties of the handler methods *)

(** [m] leaves the observation [f] of the world as it was, however it
    ends. *)
Definition preserves {A X} (f : world -> X) (m : M A) : Prop :=
  forall w, f (fst (m w)) = f w.

Section Preserves.
Context {X : Type} (f : world -> X).

Lemma preserves_ret {A} (a : A) : preserves f (ret a).
Proof. intros w. reflexivity. Qed.

Lemma preserves_raise {A} (e : exn) : preserves f (@raise A e).
Proof. intros w. reflexivity. Qed.

Lemma preserves_bind {A B} (m : M A) (k : A -> M B) :
  preserves f m -> (forall a, preserves f (k a)) ->
  preserves f (bind m k).
Proof.
  intros Hm Hk w. unfold bind. specialize (Hm w).
  destruct (m w) as [w' [a | e | | ]]; simpl in *; try assumption.
  rewrite Hk. assumption.
Qed.

Lemma preserves_try {A} (m : M A) (h : exn -> M A) :
  preserves f m -> (forall e, preserves f (h e)) ->
  preserves f (try_except m h).
Proof.
  intros Hm Hh w. unfold try_except. specialize (Hm w).
  destruct (m w) as [w' [a | e | | ]]; simpl in *; try assumption.
  rewrite Hh. assumption.
Qed.

Lemma preserves_for_each {A} (l : list A) (body : A -> M unit) :
  (forall x, preserves f (body x)) -> preserves f (for_each l body).
Proof.
  intros Hb. induction l as [| x l IH]; simpl.
  - apply preserves_ret.
  - apply preserves_bind; auto.
Qed.

Lemma preserves_get_self : preserves f get_self.
Proof. intros w. reflexivity. Qed.

End Preserves.

(** Logging, the action surface and the queue do not touch the handler
    object. *)
Lemma log_keeps_hdl l fm args ei : preserves hdl (log l fm args ei).
Proof. intros w. reflexivity. Qed.

Lemma issue_keeps_hdl a : preserves hdl (issue a).
Proof. intros w. reflexivity. Qed.

Lemma put_keeps_hdl m : preserves hdl (put m).
Proof. intros w. unfold put. destruct (broken _); reflexivity. Qed.

Lemma preserves_compose {A X Y} (g : X -> Y) (f : world -> X) (m : M A) :
  preserves f m -> preserves (fun w => g (f w)) m.
Proof. intros Hm w. simpl. rewrite Hm. reflexivity. Qed.

Lemma subprocess_call_keeps_hdl E argv :
  preserves hdl (subprocess_call E argv).
Proof.
  unfold subprocess_call. apply preserves_bind.
  - apply issue_keeps_hdl.
  - intros _. destruct (call_raises E argv);
      [apply preserves_raise | apply preserves_ret].
Qed.

Lemma subprocess_Popen_keeps_hdl E argv :
  preserves hdl (subprocess_Popen E argv).
Proof.
  unfold subprocess_Popen. apply preserves_bind.
  - apply issue_keeps_hdl.
  - intros _. destruct (popen_result E argv);
      [apply preserves_raise | apply preserves_ret].
Qed.

Lemma os_kill_keeps_hdl E pid : preserves hdl (os_kill E pid).
Proof.
  unfold os_kill. apply preserves_bind.
  - apply issue_keeps_hdl.
  - intros _. destruct (kill_raises E pid);
      [apply preserves_raise | apply preserves_ret].
Qed.

Lemma dict_get_preserves {X} (f : world -> X) d k :
  preserves f (dict_get d k).
Proof.
  destruct k; simpl; try apply preserves_raise.
  destruct (d !! s); [apply preserves_ret | apply preserves_raise].
Qed.

Lemma set_onboard_keeps_mode pid : preserves mode_of (set_onboard pid).
Proof. intros w. reflexivity. Qed.

Lemma keeps_hdl_keeps_mode {A} (m : M A) :
  preserves hdl m -> preserves mode_of m.
Proof. apply (preserves_compose is_tablet hdl). Qed.

Create HintDb frame.
#[export] Hint Resolve preserves_ret preserves_raise preserves_get_self
  log_keeps_hdl issue_keeps_hdl put_keeps_hdl subprocess_call_keeps_hdl
  subprocess_Popen_keeps_hdl os_kill_keeps_hdl dict_get_preserves
  set_onboard_keeps_mode : frame.

Ltac frame :=
  repeat
    (try solve [auto with frame];
     lazymatch goal with
     | |- preserves _ (bind _ _) => apply preserves_bind; [| intros ?]
     | |- preserves _ (try_except _ _) => apply preserves_try; [| intros ?]
     | |- preserves _ (for_each _ _) => apply preserves_for_each; intros ?
     | |- preserves _ (match ?x with _ => _ end) => destruct x
     | |- preserves mode_of _ => apply keeps_hdl_keeps_mode
     end).

Lemma default_on_tablet_mode_keeps_mode E :
  preserves mode_of (DefaultEventHandler.on_tablet_mode E).
Proof.
  unfold DefaultEventHandler.on_tablet_mode. frame.
Qed.

Lemma default_on_laptop_mode_keeps_mode E :
  preserves mode_of (DefaultEventHandler.on_laptop_mode E).
Proof.
  unfold DefaultEventHandler.on_laptop_mode. frame.
Qed.

(** The inherited [on_mode_change] flips the mode whatever the two
    overridden methods do afterwards, provided they leave the flag alone. *)
Lemma on_mode_change_flips (t l : M unit) :
  preserves mode_of t -> preserves mode_of l ->
  forall w,
    mode_of (fst (BasicEventHandler.on_mode_change t l w)) =
    negb (mode_of w).
Proof.
  intros Ht Hl w. unfold BasicEventHandler.on_mode_change, set_is_tablet.
  unfold bind, get_self, set_self; simpl.
  destruct (is_tablet (hdl w)) eqn:Hm; simpl.
  - rewrite Hl. unfold mode_of; simpl. now rewrite Hm.
  - rewrite Ht. unfold mode_of; simpl. now rewrite Hm.
Qed.

Lemma after_flips (m : M unit) :
  (forall w, mode_of (fst (m w)) = negb (mode_of w)) ->
  forall n w, mode_of (after n m w) = xorb (Nat.odd n) (mode_of w).
Proof.
  intros Hm n w. induction n as [| n IH].
  - simpl. now destruct (mode_of w).
  - unfold after in *. simpl Nat.iter. rewrite Hm, IH.
    rewrite Nat.odd_succ, <- Nat.negb_odd.
    destruct (Nat.odd n), (mode_of w); reflexivity.
Qed.

(** C1. Starting from the initial mode Laptop ([is_tablet = False]), after
    [n] calls of [on_mode_change] on the default handler the mode is Laptop
    when [n] is even and Tablet when [n] is odd, however the calls end;
    every call flips the mode, so two calls in a row give back the mode
    they started from. *)
Theorem mode_change_parity (E : env) (wac : list string)
    (sty ft tp pad : string) (n : nat) :
  mode_of (run_init (BasicEventHandler.init wac sty ft tp pad)) = false /\
  mode_of (after n (call_on_mode_change (default_handler E))
             (run_init (BasicEventHandler.init wac sty ft tp pad))) =
    Nat.odd n /\
  (forall w, mode_of (fst (call_on_mode_change (default_handler E) w)) =
             negb (mode_of w)) /\
  (forall w, mode_of (after 2 (call_on_mode_change (default_handler E)) w) =
             mode_of w).
Proof.
  set (m := call_on_mode_change (default_handler E)).
  assert (Hflip : forall w, mode_of (fst (m w)) = negb (mode_of w)).
  { apply on_mode_change_flips.
    - apply default_on_tablet_mode_keeps_mode.
    - apply default_on_laptop_mode_keeps_mode. }
  repeat split; try assumption.
  - rewrite after_flips by exact Hflip.
    unfold mode_of; simpl. now destruct (Nat.odd n).
  - intros w. rewrite after_flips by exact Hflip.
    simpl. now destruct (mode_of w).
Qed.

(** The base class flips the mode as well, and then raises. *)
Lemma basic_on_mode_change_flips (w : world) :
  mode_of (fst (call_on_mode_change basic_handler w)) = negb (mode_of w) /\
  snd (call_on_mode_change basic_handler w) = Raise TypeError.
Proof.
  split.
  - apply on_mode_change_flips; intros w'; reflexivity.
  - unfold basic_handler, call_on_mode_change,
      BasicEventHandler.on_mode_change, set_is_tablet, bind, get_self,
      set_self. simpl. destruct (negb (is_tablet (hdl w))); reflexivity.
Qed.

(** ** Rotation *)

Lemma orientation_lookup o x y :
  In (o, x, y) orientation_table ->
  DefaultEventHandler.xrandr_orientation_map !! o = Some x /\
  DefaultEventHandler.wacom_orientation_map !! o = Some y.
Proof.
  unfold orientation_table. simpl.
  intros [H | [H | [H | [H | []]]]]; inversion H; subst; split;
    vm_compute; reflexivity.
Qed.

Lemma for_each_ext {A} (l : list A) (b1 b2 : A -> M unit) :
  (forall x w, b1 x w = b2 x w) ->
  forall w, for_each l b1 w = for_each l b2 w.
Proof.
  intros Hb. induction l as [| x l IH]; intros w; simpl.
  - reflexivity.
  - unfold bind. rewrite Hb. destruct (b2 x w) as [w' [[] | | | ]]; auto.
Qed.

Lemma for_each_calls E (f : string -> list string) (l : list string) :
  Forall (fun i => call_raises E (f i) = None) l ->
  forall w,
    for_each l (fun i => subprocess_call E (f i)) w =
    (World (hdl w) (message_queue w) (logger w)
       (actions w ++ map (fun i => Call (f i)) l), Ret tt).
Proof.
  induction 1 as [| i l Hi Hl IH]; intros w; simpl.
  - rewrite app_nil_r. now destruct w.
  - unfold bind at 1. unfold subprocess_call at 1.
    unfold bind, issue. rewrite Hi. simpl. rewrite IH. simpl.
    rewrite <- app_assoc. reflexivity.
Qed.

(** Whether or not the commands can be executed, what a loop of calls
    issues is a beginning of the list of its commands. *)
Lemma for_each_calls_prefix E (f : string -> list string)
    (l : list string) : forall w,
  exists k,
    actions (fst (for_each l (fun i => subprocess_call E (f i)) w)) =
    actions w ++ firstn k (map (fun i => Call (f i)) l).
Proof.
  induction l as [| i l IH]; intros w.
  - exists 0. simpl. now rewrite app_nil_r.
  - cbn [for_each]. unfold bind at 1. unfold subprocess_call at 1.
    unfold bind, issue. destruct (call_raises E (f i)) as [e |]; simpl.
    + exists 1. reflexivity.
    + destruct (IH (World (hdl w) (message_queue w) (logger w)
                      (actions w ++ [Call (f i)]))) as [k Hk].
      exists (S k). rewrite Hk. simpl. now rewrite <- app_assoc.
Qed.

(** C2. For each of the four orientations, [on_rotate] issues the display
    rotation with the value of the first table (right-up: right, normal:
    normal, bottom-up: inverted, left-up: left) and then, for every
    detected stylus-class device in turn, the device rotation with the
    value of the second table (right-up: cw, normal: none, bottom-up: half,
    left-up: ccw); nothing else is issued. The commands are assumed to be
    executable. *)
Theorem on_rotate_follows_tables (E : env) (o x y : string) (w : world) :
  In (o, x, y) orientation_table ->
  Forall (fun c => call_raises E c = None)
    (rotate_commands x y (wacom (hdl w))) ->
  DefaultEventHandler.on_rotate E (PStr o) w =
  (World (hdl w) (message_queue w)
     (logger w ++ [LogRecord DEBUG "on rotate: %s" [PStr o] None])
     (actions w ++ map Call (rotate_commands x y (wacom (hdl w)))),
   Ret tt).
Proof.
  intros Hin Hok. destruct (orientation_lookup o x y Hin) as [Hx Hy].
  unfold rotate_commands in *. inversion Hok as [| c cs Hd Hw]; subst.
  unfold DefaultEventHandler.on_rotate.
  unfold bind at 1. unfold log at 1.
  unfold bind at 1. unfold dict_get at 1. rewrite Hx. unfold ret at 1.
  unfold bind at 1. unfold subprocess_call at 1.
  unfold bind at 1. unfold issue at 1. rewrite Hd. unfold ret at 1.
  unfold bind at 1. unfold get_self at 1. cbn [hdl].
  rewrite for_each_ext with
    (b2 := fun i => subprocess_call E ["xsetwacom"; "--set"; i; "rotate"; y]).
  - rewrite (for_each_calls E
               (fun i => ["xsetwacom"; "--set"; i; "rotate"; y])).
    + cbn [hdl message_queue logger actions map].
      rewrite List.map_map, <- app_assoc. reflexivity.
    + apply Forall_map in Hw. exact Hw.
  - intros i w'. unfold bind at 1. unfold dict_get. rewrite Hy.
    reflexivity.
Qed.

Lemma on_rotate_follows_tables_witness :
  DefaultEventHandler.on_rotate quiet_env (PStr "left-up")
    (run_init sample_handler) =
  (World sample_handler (MQueue [] None)
     [LogRecord DEBUG "on rotate: %s" [PStr "left-up"] None]
     [Call ["xrandr"; "-o"; "left"];
      Call ["xsetwacom"; "--set"; "Wacom Pen stylus"; "rotate"; "ccw"];
      Call ["xsetwacom"; "--set"; "Wacom Pen eraser"; "rotate"; "ccw"]],
   Ret tt).
Proof.
  apply (on_rotate_follows_tables quiet_env "left-up" "left" "ccw"
           (run_init sample_handler)).
  - simpl. tauto.
  - repeat constructor.
Defined.

(** Without the assumption: the display command with the value of the
    table is always issued first, and what follows it is a beginning of the
    list of device commands. *)
Lemma on_rotate_issues_prefix (E : env) (o x y : string) (w : world) :
  In (o, x, y) orientation_table ->
  exists k,
    actions (fst (DefaultEventHandler.on_rotate E (PStr o) w)) =
    actions w ++
    firstn (S k) (map Call (rotate_commands x y (wacom (hdl w)))).
Proof.
  intros Hin. destruct (orientation_lookup o x y Hin) as [Hx Hy].
  unfold DefaultEventHandler.on_rotate.
  unfold bind at 1. unfold log at 1.
  unfold bind at 1. unfold dict_get at 1. rewrite Hx. unfold ret at 1.
  unfold bind at 1. unfold subprocess_call at 1.
  unfold bind at 1. unfold issue at 1.
  destruct (call_raises E ["xrandr"; "-o"; x]) as [e |].
  - exists 0. reflexivity.
  - unfold ret at 1. unfold bind at 1. unfold get_self at 1. cbn [hdl].
    rewrite for_each_ext with
      (b2 := fun i =>
               subprocess_call E ["xsetwacom"; "--set"; i; "rotate"; y]).
    + match goal with
      | |- context [for_each ?l ?b ?w0] =>
          destruct (for_each_calls_prefix E
                      (fun i => ["xsetwacom"; "--set"; i; "rotate"; y])
                      l w0) as [k Hk]
      end.
      exists k. rewrite Hk. cbn [actions rotate_commands map firstn].
      rewrite List.map_map, <- app_assoc. reflexivity.
    + intros i w'. unfold bind at 1. unfold dict_get. rewrite Hy.
      reflexivity.
Qed.

(** ** Leaving tablet mode *)

(** C10. [on_laptop_mode] never lets an exception of the termination step
    out. An exception it raises is one of a re-enabling command, and then
    the termination step has not been started. When both re-enabling
    commands can be executed it returns normally: the two commands are
    issued first, the termination step comes after them, and a failure of
    that step (no handle because no keyboard was ever started, or a signal
    that cannot be delivered) is logged as a warning. *)
Theorem on_laptop_mode_guards_termination (E : env) (w : world) :
  (forall e,
     snd (DefaultEventHandler.on_laptop_mode E w) = Raise e ->
     In (Some e) (map (call_raises E) (enable_commands (hdl w))) /\
     forallb (fun a => negb (is_kill a))
       (actions (fst (DefaultEventHandler.on_laptop_mode E w))) =
     forallb (fun a => negb (is_kill a)) (actions w)) /\
  (Forall (fun c => call_raises E c = None) (enable_commands (hdl w)) ->
   DefaultEventHandler.on_laptop_mode E w =
   (World (hdl w) (message_queue w)
      (logger w ++ LogRecord DEBUG "on laptop mode" [] None ::
         termination_log E (hdl w))
      (actions w ++ map Call (enable_commands (hdl w)) ++
         termination_actions (hdl w)),
    Ret tt)) /\
  (onboard (hdl w) = None ->
   termination_log E (hdl w) =
   [LogRecord WARNING "exception while terminating onboard: " []
      (Some (AttributeError "onboard"))]) /\
  snd (DefaultEventHandler.on_laptop_mode E w) <> Block /\
  snd (DefaultEventHandler.on_laptop_mode E w) <> Fuel.
Proof.
  unfold DefaultEventHandler.on_laptop_mode, enable_commands,
    termination_log, termination_error, termination_actions.
  unfold for_each, subprocess_call, os_kill, try_except, bind, log, issue,
    get_self, ret, raise.
  cbn [hdl message_queue logger actions fst snd map].
  destruct (call_raises E ["xinput"; "enable"; trackpoint (hdl w)])
    as [e1 |] eqn:H1; cbn [fst snd actions hdl].
  { repeat split; try discriminate.
    - inversion H; subst. simpl. auto.
    - rewrite forallb_app. simpl. now rewrite andb_true_r.
    - intros Hall. inversion Hall; congruence.
    - intros ->. reflexivity. }
  destruct (call_raises E ["xinput"; "enable"; touchpad (hdl w)])
    as [e2 |] eqn:H2; cbn [fst snd actions hdl].
  { repeat split; try discriminate.
    - inversion H; subst. simpl. auto.
    - rewrite !forallb_app. simpl. now rewrite !andb_true_r.
    - intros Hall. inversion Hall as [| ? ? ? Hall']; inversion Hall';
        congruence.
    - intros ->. reflexivity. }
  destruct (onboard (hdl w)) as [pid |] eqn:Ho;
    cbn [fst snd actions hdl logger message_queue].
  - destruct (kill_raises E pid) as [e |];
      cbn [fst snd actions hdl logger message_queue];
      repeat split; try discriminate;
      intros _; rewrite <- !app_assoc; reflexivity.
  - repeat split; try discriminate.
    intros _. rewrite <- !app_assoc. rewrite app_nil_r. reflexivity.
Qed.

(** Tablet mode was entered with a keyboard that cannot be started, so
    there is no handle; on leaving it the two devices are enabled, the
    warning is logged and the call returns. *)
Lemma on_laptop_mode_guards_termination_witness :
  DefaultEventHandler.on_laptop_mode launch_fails_env
    (World (hdl (fst (DefaultEventHandler.on_tablet_mode launch_fails_env
                        (run_init sample_handler))))
       (MQueue [] None) [] []) =
  (World sample_handler (MQueue [] None)
     [LogRecord DEBUG "on laptop mode" [] None;
      LogRecord WARNING "exception while terminating onboard: " []
        (Some (AttributeError "onboard"))]
     [Call ["xinput"; "enable"; "TPPS/2 TrackPoint"];
      Call ["xinput"; "enable"; "SynPS/2 TouchPad"]],
   Ret tt).
Proof.
  apply (proj1 (proj2 (on_laptop_mode_guards_termination launch_fails_env
                         (World (hdl (fst (DefaultEventHandler.on_tablet_mode
                                             launch_fails_env
                                             (run_init sample_handler))))
                            (MQueue [] None) [] [])))).
  repeat constructor.
Defined.

(** ** Records of a byte stream *)

Lemma bytes_in_app c (a b : bytes) :
  bytes_in c (a ++ b) = bytes_in c a || bytes_in c b.
Proof. apply existsb_app. Qed.

Lemma bytes_split_no_more sep (b : bytes) : bytes_split sep (Some 0) b = [b].
Proof.
  induction b as [| c r IH]; simpl.
  - reflexivity.
  - rewrite andb_false_r, IH. reflexivity.
Qed.

(** With a newline in the buffer, [split(b'\n', 1)] gives the bytes before
    the first newline and the bytes after it. *)
Lemma bytes_split_first (b : bytes) :
  bytes_in nl b = true ->
  exists line rest,
    bytes_split nl (Some 1) b = [line; rest] /\
    b = line ++ nl :: rest /\
    bytes_in nl line = false.
Proof.
  induction b as [| c r IH]; simpl; intros Hin.
  - discriminate.
  - destruct (Byte.eqb c nl) eqn:Hc; simpl.
    + apply Byte.byte_dec_bl in Hc. subst c.
      exists [], r. rewrite bytes_split_no_more. auto.
    + simpl in Hin. destruct (IH Hin) as (line & rest & Hs & Hb & Hl).
      exists (c :: line), rest. rewrite Hs. subst r. simpl.
      rewrite Hc. auto.
Qed.

Lemma complete_records_none (b : bytes) :
  bytes_in nl b = false -> complete_records b = [].
Proof.
  induction b as [| c r IH]; simpl; intros Hin.
  - reflexivity.
  - apply orb_false_elim in Hin as [Hc Hr]. rewrite Hc, IH; auto.
Qed.

Lemma complete_records_first (line rest : bytes) :
  bytes_in nl line = false ->
  complete_records (line ++ nl :: rest) = line :: complete_records rest.
Proof.
  induction line as [| c l IH]; simpl; intros Hin.
  - reflexivity.
  - apply orb_false_elim in Hin as [Hc Hl]. rewrite Hc, IH; auto.
Qed.

Lemma complete_records_length (b : bytes) :
  length (complete_records b) <= length b.
Proof.
  induction b as [| c r IH]; simpl.
  - lia.
  - destruct (Byte.eqb c nl); simpl; [lia |].
    destruct (complete_records r); simpl in *; lia.
Qed.

(** ** Reading a line *)

Section ReadLineFacts.
Context {S : Type} `{Socket S}.

(** [read_line] returns only a line cut out of what was in the buffer
    and what [recv] has delivered since. *)
Lemma read_line_returns fuel : forall (self self' : SocketWrapper S) line,
  read_line fuel self = (self', Ret line) ->
  exists data,
    buffer self ++ data = line ++ nl :: buffer self' /\
    bytes_in nl line = false.
Proof.
  induction fuel as [| fuel IH]; intros self self' line; simpl;
    destruct (bytes_in nl (buffer self)) eqn:Hin.
  - destruct (bytes_split_first _ Hin) as (l & r & Hs & Hb & Hl).
    rewrite Hs. intros Heq. inversion Heq; subst. simpl.
    exists []. rewrite app_nil_r. auto.
  - discriminate.
  - destruct (bytes_split_first _ Hin) as (l & r & Hs & Hb & Hl).
    rewrite Hs. intros Heq. inversion Heq; subst. simpl.
    exists []. rewrite app_nil_r. auto.
  - destruct (recv (sock self) 4096%N) as [d s' | | e];
      try discriminate.
    intros Heq. apply IH in Heq. simpl in Heq.
    destruct Heq as (data & Hd & Hl). exists (d ++ data).
    rewrite app_assoc. auto.
Qed.

(** As long as [recv] keeps delivering bytes without a newline,
    [read_line] is still running whatever the fuel. *)
Lemma read_line_starves (Inv : S -> Prop) :
  (forall s, Inv s ->
     exists d s', recv s 4096%N = RecvData d s' /\
                  bytes_in nl d = false /\ Inv s') ->
  forall fuel buf s,
    Inv s -> bytes_in nl buf = false ->
    snd (read_line fuel (MkSocketWrapper buf s)) = Fuel.
Proof.
  intros Hstep. induction fuel as [| fuel IH]; intros buf s Hs Hbuf;
    simpl; rewrite Hbuf.
  - reflexivity.
  - destruct (Hstep s Hs) as (d & s' & Hr & Hd & Hs'). rewrite Hr.
    apply IH; [assumption |]. rewrite bytes_in_app, Hbuf, Hd.
    reflexivity.
Qed.

End ReadLineFacts.

(** ** The socket watcher on a scripted socket *)

Lemma read_line_scripted_blocks : forall (cs : list bytes) buf fuel,
  length cs < fuel ->
  bytes_in nl (buf ++ concat cs) = false ->
  snd (read_line fuel (MkSocketWrapper buf (Scripted cs false))) = Block.
Proof.
  induction cs as [| c cs IH]; intros buf fuel Hf Hin.
  - simpl in Hin. rewrite app_nil_r in Hin.
    destruct fuel; [lia |]. simpl. rewrite Hin. reflexivity.
  - destruct fuel as [| fuel]; [simpl in Hf; lia |].
    simpl in Hin. rewrite !bytes_in_app in Hin.
    apply orb_false_elim in Hin as [Hb Hr]. simpl. rewrite Hb.
    apply IH.
    + simpl in Hf. lia.
    + rewrite !bytes_in_app, Hb. exact Hr.
Qed.

Lemma read_line_scripted_line : forall (cs : list bytes) buf fuel b,
  length cs < fuel ->
  bytes_in nl (buf ++ concat cs) = true ->
  exists line rest cs',
    read_line fuel (MkSocketWrapper buf (Scripted cs b)) =
      (MkSocketWrapper rest (Scripted cs' b), Ret line) /\
    buf ++ concat cs = line ++ nl :: rest ++ concat cs' /\
    bytes_in nl line = false /\
    length cs' <= length cs.
Proof.
  induction cs as [| c cs IH]; intros buf fuel b Hf Hin.
  - simpl in Hin. rewrite app_nil_r in Hin.
    destruct (bytes_split_first _ Hin) as (l & r & Hs & Hb & Hl).
    exists l, r, []. destruct fuel; [lia |]. simpl.
    rewrite Hin, Hs, !app_nil_r. auto.
  - destruct fuel as [| fuel]; [simpl in Hf; lia |].
    destruct (bytes_in nl buf) eqn:Hbuf.
    + destruct (bytes_split_first _ Hbuf) as (l & r & Hs & Hb & Hl).
      exists l, r, (c :: cs). simpl. rewrite Hbuf, Hs. subst buf.
      rewrite <- app_assoc. auto.
    + destruct (IH (buf ++ c) fuel b) as (l & r & cs' & Hr & Hb & Hl & Hlen).
      * simpl in Hf. lia.
      * rewrite <- app_assoc. exact Hin.
      * exists l, r, cs'. simpl. rewrite Hbuf. simpl in Hr. rewrite Hr.
        rewrite <- app_assoc in Hb. simpl in *. auto with arith.
Qed.

Lemma acpi_event_puts (event : bytes) (w : world) :
  broken (message_queue w) = None ->
  exists w',
    acpi_event event w = (w', Ret tt) /\
    broken (message_queue w') = None /\
    items (message_queue w') =
      items (message_queue w) ++
      (if startswith EV_TABLET_MODE event then [("mode-change", [])]
       else []).
Proof.
  intros Hq. unfold acpi_event, bind, log, put, ret.
  cbn [message_queue]. destruct (startswith EV_TABLET_MODE event).
  - cbn [message_queue]. rewrite Hq. eexists. split; [reflexivity |].
    simpl. auto.
  - eexists. split; [reflexivity |]. simpl. rewrite app_nil_r. auto.
Qed.

Lemma mode_changes_first (line rest : bytes) :
  bytes_in nl line = false ->
  mode_changes (line ++ nl :: rest) =
  (if startswith EV_TABLET_MODE line then [("mode-change", [])] else []) ++
  mode_changes rest.
Proof.
  intros Hl. unfold mode_changes. rewrite complete_records_first by exact Hl.
  cbn [List.filter]. destruct (startswith EV_TABLET_MODE line); reflexivity.
Qed.

Lemma acpi_events_loop_scripted : forall n (cs : list bytes) buf fuel w,
  broken (message_queue w) = None ->
  length cs < fuel ->
  length (complete_records (buf ++ concat cs)) < n ->
  snd (acpi_events_loop fuel n (MkSocketWrapper buf (Scripted cs false)) w)
    = Block /\
  items (message_queue
           (fst (acpi_events_loop fuel n
                   (MkSocketWrapper buf (Scripted cs false)) w))) =
  items (message_queue w) ++ mode_changes (buf ++ concat cs).
Proof.
  induction n as [| n IH]; intros cs buf fuel w Hq Hf Hn; [lia |].
  simpl. destruct (bytes_in nl (buf ++ concat cs)) eqn:Hin.
  - destruct (read_line_scripted_line cs buf fuel false Hf Hin)
      as (l & r & cs' & Hr & Hb & Hl & Hlen).
    rewrite Hr. unfold bind.
    destruct (acpi_event_puts l w Hq) as (w' & He & Hq' & Hi).
    rewrite He. rewrite Hb in Hn |- *.
    rewrite complete_records_first in Hn by exact Hl. simpl in Hn.
    destruct (IH cs' r fuel w' Hq') as [Hres Hitems]; [lia | lia |].
    split; [exact Hres |].
    rewrite Hitems, Hi, mode_changes_first by exact Hl.
    rewrite <- app_assoc. reflexivity.
  - pose proof (read_line_scripted_blocks cs buf fuel Hf Hin) as Hb.
    destruct (read_line fuel _) as [sw' r]. simpl in Hb. subst r. simpl.
    unfold mode_changes. rewrite complete_records_none by exact Hin.
    simpl. rewrite app_nil_r. auto.
Qed.

(** C3. Whatever the chunks in which [recv] delivers a byte stream, the
    socket watcher puts on the queue exactly one mode-change event for
    every complete newline-terminated record of the stream that starts
    with [EV_TABLET_MODE], and nothing for any other record; it then waits
    for more bytes. The events depend on the stream only, not on where the
    chunks are cut. *)
Theorem acpi_watcher_chunking (stream : bytes) (cs : list bytes)
    (fuel : nat) (w : world) :
  concat cs = stream ->
  broken (message_queue w) = None ->
  length cs + length stream < fuel ->
  snd (acpi_events_watcher fuel (inr (Scripted cs false)) w) = Block /\
  items (message_queue
           (fst (acpi_events_watcher fuel (inr (Scripted cs false)) w))) =
  items (message_queue w) ++ mode_changes stream.
Proof.
  intros Hcs Hq Hf. subst stream. unfold acpi_events_watcher.
  apply (acpi_events_loop_scripted fuel cs [] fuel w Hq).
  - lia.
  - simpl. pose proof (complete_records_length (concat cs)). lia.
Qed.

Lemma acpi_watcher_chunking_witness :
  snd (acpi_events_watcher 100 (inr (Scripted sample_chunks false))
         (run_init sample_handler)) = Block /\
  items (message_queue
           (fst (acpi_events_watcher 100 (inr (Scripted sample_chunks false))
                   (run_init sample_handler)))) =
  [] ++ mode_changes (concat sample_chunks).
Proof.
  apply (acpi_watcher_chunking (concat sample_chunks) sample_chunks 100
           (run_init sample_handler)).
  - reflexivity.
  - reflexivity.
  - vm_compute. lia.
Defined.

Example sample_chunks_events :
  mode_changes (concat sample_chunks) = [("mode-change", [])] /\
  complete_records (concat sample_chunks) =
  map list_byte_of_string
    [" 40D1BF71-A82D-4E 000000"; "button/power PBTN"].
Proof. split; vm_compute; reflexivity. Qed.

(** ** A socket that never delivers a newline *)

(** C9. [read_line] ends only through a newline in its buffer. If [recv]
    keeps returning bytes without a newline (in particular the empty byte
    string, again and again, once the peer has closed the connection) and
    the buffer holds none, then whatever the number of calls of [recv]
    allowed, [read_line] has neither returned nor raised: it is still in
    its loop; and so is the socket watcher, which has put nothing on the
    queue and never sees the end of the stream. *)
Theorem read_line_needs_newline {S : Type} {Sk : Socket S}
    (Inv : S -> Prop) (self : SocketWrapper S) (fuel n : nat) (w : world) :
  (forall s, Inv s ->
     exists d s', recv s 4096%N = RecvData d s' /\
                  bytes_in nl d = false /\ Inv s') ->
  Inv (sock self) ->
  bytes_in nl (buffer self) = false ->
  snd (read_line fuel self) = Fuel /\
  acpi_events_loop fuel (Datatypes.S n) self w = (w, Fuel).
Proof.
  intros Hstep Hs Hbuf. destruct self as [buf s]. simpl in Hs, Hbuf.
  pose proof (read_line_starves Inv Hstep fuel buf s Hs Hbuf) as Hr.
  split; [exact Hr |].
  cbn [acpi_events_loop].
  destruct (read_line fuel (MkSocketWrapper buf s)) as [sw' r].
  simpl in Hr. subst r. reflexivity.
Qed.

Lemma read_line_needs_newline_witness :
  snd (read_line 50 (MkSocketWrapper (list_byte_of_string "button/")
                       closed_socket)) = Fuel /\
  acpi_events_loop 50 3
    (MkSocketWrapper (list_byte_of_string "button/") closed_socket)
    (run_init sample_handler) = (run_init sample_handler, Fuel).
Proof.
  apply (read_line_needs_newline (fun s => s = closed_socket)
           (MkSocketWrapper (list_byte_of_string "button/") closed_socket)
           50 2 (run_init sample_handler)).
  - intros s Hs. subst s. exists [], closed_socket.
    repeat split; reflexivity.
  - reflexivity.
  - reflexivity.
Defined.

(** The same for any data still to be read that has no newline. *)
Lemma read_line_closed_peer (cs : list bytes) (buf : bytes) (fuel : nat) :
  bytes_in nl (buf ++ concat cs) = false ->
  snd (read_line fuel (MkSocketWrapper buf (Scripted cs true))) = Fuel.
Proof.
  intros Hin.
  apply (read_line_starves
           (fun s => closed s = true /\ bytes_in nl (concat (chunks s)) = false)).
  - intros [cs' b] [Hc Hn]. simpl in Hc, Hn. subst b.
    destruct cs' as [| c cs'].
    + exists [], (Scripted [] true). repeat split; reflexivity.
    + simpl in Hn. rewrite bytes_in_app in Hn.
      apply orb_false_elim in Hn as [Hc Hn].
      exists c, (Scripted cs' true). repeat split; assumption.
  - rewrite bytes_in_app in Hin. apply orb_false_elim in Hin as [_ Hn].
    split; [reflexivity | exact Hn].
  - rewrite bytes_in_app in Hin. apply orb_false_elim in Hin as [Hb _].
    exact Hb.
Qed.

(** ** The process wrapper *)

(** What the wrapper hands to the queue. Whatever the target and whatever
    it raises, the wrapper catches the exception and calls [put] once, with
    the exit tuple that holds the name of the watcher, the reason
    'uncaught-exception' and [sys.exc_info()]: on a working queue that
    tuple joins the buffer; if [put] raises, that exception is swallowed
    and the buffer is left as it was. In both cases the wrapper returns
    normally. *)
Lemma process_wrapper_puts_exit (name : string) (target : target_type)
    (args : list pyval) (kwargs : gmap string pyval) (w w1 : world)
    (e : exn) :
  target args kwargs
    (World (hdl w) (message_queue w)
       (logger w ++ [LogRecord INFO "%s started" [PStr name] None])
       (actions w)) = (w1, Raise e) ->
  process_wrapper name target (args, kwargs) w =
  (World (hdl w1)
     (match broken (message_queue w1) with
      | None => MQueue (items (message_queue w1) ++
                          [("exit", [PStr name; PStr "uncaught-exception";
                                     PExcInfo e])]) None
      | Some _ => message_queue w1
      end)
     (logger w1 ++
        [LogRecord ERROR "uncaught exception from process %s:" [] (Some e)])
     (actions w1),
   Ret tt).
Proof.
  intros Ht. unfold process_wrapper, try_except, bind, log at 1.
  rewrite Ht. unfold log, put, exit_msg, ret. cbn [message_queue].
  destruct w1 as [h [its [eq |]] lg acts]; reflexivity.
Qed.

(** The wrapper itself never raises. *)
Lemma process_wrapper_never_raises (name : string) (target : target_type)
    (argtuple : list pyval * gmap string pyval) (w : world) (e : exn) :
  snd (process_wrapper name target argtuple w) <> Raise e.
Proof.
  destruct argtuple as [args kwargs].
  unfold process_wrapper, try_except, bind, log at 1.
  destruct (target args kwargs _) as [w1 [[] | e1 | | ]]; try discriminate.
  unfold log, put, ret. cbn [message_queue].
  destruct (broken (message_queue w1)); discriminate.
Qed.

Lemma filter_picklable_app (l1 l2 : list msg) :
  List.filter picklable_msg (l1 ++ l2) =
  List.filter picklable_msg l1 ++ List.filter picklable_msg l2.
Proof.
  induction l1 as [| m l1 IH]; simpl; [reflexivity |].
  destruct (picklable_msg m); simpl; now rewrite IH.
Qed.

(** C4. The wrapper does catch whatever the target raises, calls [put]
    once with the exit tuple and returns normally, and a [put] that raises
    is swallowed. But the tuple holds [sys.exc_info()], which cannot be
    pickled, so the queue drops it after [put] has returned: what the
    dispatcher can receive is what it could receive before the wrapper
    caught the exception, and the exit event the wrapper meant to enqueue
    never arrives. *)
Theorem exit_event_is_never_delivered (name : string)
    (target : target_type) (args : list pyval)
    (kwargs : gmap string pyval) (w w1 : world) (e : exn) :
  target args kwargs
    (World (hdl w) (message_queue w)
       (logger w ++ [LogRecord INFO "%s started" [PStr name] None])
       (actions w)) = (w1, Raise e) ->
  snd (process_wrapper name target (args, kwargs) w) = Ret tt /\
  items (message_queue (fst (process_wrapper name target (args, kwargs) w)))
    = items (message_queue w1) ++
      match broken (message_queue w1) with
      | None => [("exit", [PStr name; PStr "uncaught-exception";
                           PExcInfo e])]
      | Some _ => []
      end /\
  picklable_msg
    ("exit", [PStr name; PStr "uncaught-exception"; PExcInfo e]) = false /\
  delivered (message_queue
               (fst (process_wrapper name target (args, kwargs) w))) =
    delivered (message_queue w1).
Proof.
  intros Ht.
  rewrite (process_wrapper_puts_exit name target args kwargs w w1 e Ht).
  cbn [fst snd message_queue]. unfold delivered.
  destruct (broken (message_queue w1)); cbn [items].
  - rewrite app_nil_r. repeat split; reflexivity.
  - rewrite filter_picklable_app. cbn. rewrite app_nil_r.
    repeat split; reflexivity.
Qed.

Lemma exit_event_is_never_delivered_witness :
  snd (process_wrapper "stylus_events_watcher"
         (fun _ _ => stylus_events_watcher no_stylus_env) ([], ∅)
         (run_init sample_handler)) = Ret tt /\
  items (message_queue
           (fst (process_wrapper "stylus_events_watcher"
                   (fun _ _ => stylus_events_watcher no_stylus_env) ([], ∅)
                   (run_init sample_handler))))
    = [] ++
      [("exit", [PStr "stylus_events_watcher"; PStr "uncaught-exception";
                 PExcInfo (RuntimeError "stylus not found")])] /\
  picklable_msg
    ("exit", [PStr "stylus_events_watcher"; PStr "uncaught-exception";
              PExcInfo (RuntimeError "stylus not found")]) = false /\
  delivered (message_queue
               (fst (process_wrapper "stylus_events_watcher"
                       (fun _ _ => stylus_events_watcher no_stylus_env)
                       ([], ∅) (run_init sample_handler)))) =
    delivered (MQueue [] None).
Proof.
  apply (exit_event_is_never_delivered "stylus_events_watcher"
           (fun _ _ => stylus_events_watcher no_stylus_env) [] ∅
           (run_init sample_handler)
           (World sample_handler (MQueue [] None)
              [LogRecord INFO "%s started" [PStr "stylus_events_watcher"]
                 None] [])
           (RuntimeError "stylus not found")).
  reflexivity.
Defined.

(** On that system the dispatcher receives nothing at all. *)
Example no_stylus_nothing_delivered :
  delivered (message_queue
               (fst (process_wrapper "stylus_events_watcher"
                       (fun _ _ => stylus_events_watcher no_stylus_env)
                       ([], ∅) (run_init sample_handler)))) = [].
Proof. vm_compute. reflexivity. Qed.

(** ** The dispatcher *)

(** The default handler never touches the queue. *)
Lemma log_keeps_queue l fm args ei :
  preserves message_queue (log l fm args ei).
Proof. intros w. reflexivity. Qed.

Lemma issue_keeps_queue a : preserves message_queue (issue a).
Proof. intros w. reflexivity. Qed.

Lemma set_is_tablet_keeps_queue b :
  preserves message_queue (set_is_tablet b).
Proof. intros w. reflexivity. Qed.

Lemma set_onboard_keeps_queue pid :
  preserves message_queue (set_onboard pid).
Proof. intros w. reflexivity. Qed.

#[export] Hint Resolve log_keeps_queue issue_keeps_queue
  set_is_tablet_keeps_queue set_onboard_keeps_queue : frame.

Lemma subprocess_call_keeps_queue E argv :
  preserves message_queue (subprocess_call E argv).
Proof. unfold subprocess_call. frame. Qed.

Lemma subprocess_Popen_keeps_queue E argv :
  preserves message_queue (subprocess_Popen E argv).
Proof. unfold subprocess_Popen. frame. Qed.

Lemma os_kill_keeps_queue E pid :
  preserves message_queue (os_kill E pid).
Proof. unfold os_kill. frame. Qed.

#[export] Hint Resolve subprocess_call_keeps_queue
  subprocess_Popen_keeps_queue os_kill_keeps_queue : frame.

Lemma default_dispatch_keeps_queue E m :
  preserves message_queue (dispatch (default_handler E) m).
Proof.
  destruct m as [event args]. unfold dispatch, default_handler.
  cbn [call_on_mode_change call_on_rotate call_on_stylus_event].
  unfold DefaultEventHandler.on_mode_change,
    BasicEventHandler.on_mode_change, DefaultEventHandler.on_tablet_mode,
    DefaultEventHandler.on_laptop_mode, DefaultEventHandler.on_rotate,
    DefaultEventHandler.on_stylus_event.
  frame.
Qed.

(** The first event makes [on_rotate] raise KeyError: the loop ends with
    it and the mode change stays on the queue, unprocessed. *)
Lemma run_loop_stops_at_key_error :
  run_loop (default_handler quiet_env) 3
    (run_with sample_handler undefined_then_mode_change) =
  (World sample_handler (MQueue [("mode-change", [])] None)
     [LogRecord DEBUG "received event %s" [PStr "rotate"] None;
      LogRecord DEBUG "on rotate: %s" [PStr "undefined"] None]
     [],
   Raise KeyError).
Proof. vm_compute. reflexivity. Qed.

Lemma dispatcher_does_not_survive :
  ~ dispatcher_survives (default_handler quiet_env).
Proof.
  intros Hs.
  specialize (Hs sample_handler undefined_then_mode_change 3).
  rewrite run_loop_stops_at_key_error in Hs. simpl in Hs.
  assert (Hlt : 2 < 3) by lia. specialize (Hs Hlt). discriminate.
Qed.

(** C5, as the code has it. The loop of [run] has no error handling of its
    own: when the handler raises while an event is processed, the
    exception ends the loop and the events behind stay on the queue,
    neither popped nor processed; as long as the handling of an event
    returns, the loop goes on with the next event in queue order. *)
Theorem run_loop_stops_at_handler_error (E : env) (fuel : nat)
    (w w1 : world) (m : msg) (q : list msg) (r : result unit) :
  items (message_queue w) = m :: q ->
  dispatch (default_handler E) m
    (World (hdl w) (MQueue q (broken (message_queue w))) (logger w)
       (actions w)) = (w1, r) ->
  items (message_queue w1) = q /\
  run_loop (default_handler E) (S fuel) w =
  match r with
  | Ret _ => run_loop (default_handler E) fuel w1
  | _ => (w1, r)
  end.
Proof.
  intros Hq Hd. split.
  - pose proof (default_dispatch_keeps_queue E m
                  (World (hdl w) (MQueue q (broken (message_queue w)))
                     (logger w) (actions w))) as Hk.
    rewrite Hd in Hk. simpl in Hk. rewrite Hk. reflexivity.
  - cbn [run_loop]. unfold bind at 1. unfold get. rewrite Hq.
    unfold bind at 1. rewrite Hd. destruct r as [[] | e | | ]; reflexivity.
Qed.

Lemma run_loop_stops_at_handler_error_witness :
  items (message_queue
           (World sample_handler (MQueue [("mode-change", [])] None)
              [LogRecord DEBUG "received event %s" [PStr "rotate"] None;
               LogRecord DEBUG "on rotate: %s" [PStr "undefined"] None]
              [])) = [("mode-change", [])] /\
  run_loop (default_handler quiet_env) 3
    (run_with sample_handler undefined_then_mode_change) =
  (World sample_handler (MQueue [("mode-change", [])] None)
     [LogRecord DEBUG "received event %s" [PStr "rotate"] None;
      LogRecord DEBUG "on rotate: %s" [PStr "undefined"] None]
     [],
   Raise KeyError).
Proof.
  apply (run_loop_stops_at_handler_error quiet_env 2
           (run_with sample_handler undefined_then_mode_change)
           (World sample_handler (MQueue [("mode-change", [])] None)
              [LogRecord DEBUG "received event %s" [PStr "rotate"] None;
               LogRecord DEBUG "on rotate: %s" [PStr "undefined"] None]
              [])
           ("rotate", [PStr "undefined"]) [("mode-change", [])]
           (Raise KeyError)).
  - reflexivity.
  - vm_compute. reflexivity.
Defined.

(** C6. For an exit event the dispatcher logs the name of the watcher and
    the reason and does nothing else: the result is the same for every
    handler class, so no method of the handler is called, and the handler
    object, the queue and the action surface are as before. *)
Theorem exit_event_only_logged (H : handler_type)
    (name reason : pyval) (rest : list pyval) (w : world) :
  dispatch H ("exit", name :: reason :: rest) w =
  (World (hdl w) (message_queue w)
     (logger w ++
        [LogRecord DEBUG "received event %s" [PStr "exit"] None;
         LogRecord INFO "received child exit event from %s caused by %s"
           [name; reason] None])
     (actions w),
   Ret tt).
Proof.
  unfold dispatch, bind, log. cbn. rewrite <- app_assoc. reflexivity.
Qed.

(** C7. Input a watcher does not recognise raises nothing and puts nothing
    on the queue: a socket record without the mode-toggle prefix, a
    property-change notification without [AccelerometerOrientation], and a
    proximity-stream line that does not start with [proximity]. *)
Theorem unexpected_input_ignored (event line : bytes) (source : pyval)
    (changedProperties : gmap string pyval)
    (invalidatedProperties : list pyval) (w : world) :
  startswith EV_TABLET_MODE event = false ->
  changedProperties !! "AccelerometerOrientation" = None ->
  startswith (list_byte_of_string "proximity") line = false ->
  (snd (acpi_event event w) = Ret tt /\
   message_queue (fst (acpi_event event w)) = message_queue w) /\
  sensor_proxy_signal_handler source changedProperties
    invalidatedProperties w = (w, Ret tt) /\
  (snd (stylus_line line w) = Ret tt /\
   message_queue (fst (stylus_line line w)) = message_queue w).
Proof.
  intros He Hc Hl. repeat split.
  - unfold acpi_event, bind, log. rewrite He. reflexivity.
  - unfold acpi_event, bind, log. rewrite He. reflexivity.
  - unfold sensor_proxy_signal_handler. rewrite Hc. reflexivity.
  - unfold stylus_line, bind, log. rewrite Hl. reflexivity.
  - unfold stylus_line, bind, log. rewrite Hl. reflexivity.
Qed.

Lemma unexpected_input_ignored_witness :
  (snd (acpi_event (list_byte_of_string "button/power PBTN")
          (run_init sample_handler)) = Ret tt /\
   message_queue (fst (acpi_event (list_byte_of_string "button/power PBTN")
                         (run_init sample_handler))) =
   message_queue (run_init sample_handler)) /\
  sensor_proxy_signal_handler (PStr "net.hadess.SensorProxy")
    (<["LightLevel" := PStr "12"]> ∅) [] (run_init sample_handler) =
    (run_init sample_handler, Ret tt) /\
  (snd (stylus_line (list_byte_of_string "motion a[0]=1")
          (run_init sample_handler)) = Ret tt /\
   message_queue (fst (stylus_line (list_byte_of_string "motion a[0]=1")
                         (run_init sample_handler))) =
   message_queue (run_init sample_handler)).
Proof.
  apply (unexpected_input_ignored (list_byte_of_string "button/power PBTN")
           (list_byte_of_string "motion a[0]=1")
           (PStr "net.hadess.SensorProxy")
           (<["LightLevel" := PStr "12"]> ∅) [] (run_init sample_handler)).
  - reflexivity.
  - vm_compute. reflexivity.
  - reflexivity.
Defined.

(** A line that does start with [proximity] but has no second field is
    not ignored: the index raises. *)
Example stylus_line_without_status :
  snd (stylus_line (list_byte_of_string "proximity")
         (run_init sample_handler)) = Raise IndexError.
Proof. vm_compute. reflexivity. Qed.

(** ** Order on the event queue *)

Lemma from_app p (l1 l2 : list (string * msg)) :
  EventQueue.from p (l1 ++ l2) = EventQueue.from p l1 ++ EventQueue.from p l2.
Proof.
  induction l1 as [| [q m] l1 IH]; simpl.
  - reflexivity.
  - destruct (String.eqb q p); simpl; now rewrite IH.
Qed.

Lemma pending_of_insert p q ms (s : EventQueue.state) a b :
  EventQueue.pending_of p
    (EventQueue.State (<[q := ms]> (EventQueue.pending s)) a b) =
  if String.eqb q p then ms else EventQueue.pending_of p s.
Proof.
  unfold EventQueue.pending_of. simpl.
  destruct (String.eqb q p) eqn:Hqp.
  - apply String.eqb_eq in Hqp. subst q. now rewrite lookup_insert_eq.
  - apply String.eqb_neq in Hqp. now rewrite lookup_insert_ne.
Qed.

Lemma step_history p (s : EventQueue.state) (o : EventQueue.op) :
  history p (EventQueue.step s o) =
  history p s ++ EventQueue.pushes p [o].
Proof.
  destruct o as [q m | q | ]; unfold history; simpl.
  - rewrite pending_of_insert. destruct (String.eqb q p) eqn:Hqp.
    + apply String.eqb_eq in Hqp. subst q. now rewrite <- !app_assoc.
    + now rewrite !app_nil_r.
  - rewrite app_nil_r.
    destruct (EventQueue.pending_of q s) as [| m ms] eqn:Hq; [reflexivity |].
    simpl. rewrite pending_of_insert, from_app. simpl.
    destruct (String.eqb q p) eqn:Hqp.
    + apply String.eqb_eq in Hqp. subst q. rewrite Hq.
      now rewrite <- !app_assoc.
    + now rewrite app_nil_r.
  - rewrite app_nil_r.
    destruct (EventQueue.arrived s) as [| [q m] xs] eqn:Ha; simpl.
    + now rewrite Ha.
    + rewrite from_app. simpl. destruct (String.eqb q p); simpl;
        now rewrite <- ?app_assoc, ?app_nil_r.
Qed.

Lemma pushes_app p (o1 o2 : list EventQueue.op) :
  EventQueue.pushes p (o1 ++ o2) =
  EventQueue.pushes p o1 ++ EventQueue.pushes p o2.
Proof.
  induction o1 as [| [q m | q | ] o1 IH]; simpl; auto.
  destruct (String.eqb q p); simpl; now rewrite IH.
Qed.

Lemma fold_history p (ops : list EventQueue.op) : forall s,
  history p (fold_left EventQueue.step ops s) =
  history p s ++ EventQueue.pushes p ops.
Proof.
  induction ops as [| o ops IH]; intros s.
  - simpl. now rewrite app_nil_r.
  - cbn [fold_left]. rewrite IH, step_history, <- app_assoc.
    now rewrite <- pushes_app.
Qed.

(** C8. Whatever the schedule of pushes, arrivals and pops, and whatever
    other producers push in between, the events of one producer that the
    dispatcher has popped are, in the order of the pops, the first events
    that producer pushed, in the order of its pushes: what follows them in
    that order is still in the queue or under way. *)
Theorem per_producer_fifo (p : string) (ops : list EventQueue.op) :
  EventQueue.pushes p ops =
  EventQueue.from p (EventQueue.popped (EventQueue.exec ops)) ++
  (EventQueue.from p (EventQueue.arrived (EventQueue.exec ops)) ++
   EventQueue.pending_of p (EventQueue.exec ops)).
Proof.
  pose proof (fold_history p ops EventQueue.init) as Hh.
  unfold history in Hh. unfold EventQueue.exec. rewrite Hh. reflexivity.
Qed.

(** Three events of one watcher with an event of another in between, all
    four delivered. *)
Example abc_in_order :
  let A := ("stylus-event", [PBytes (list_byte_of_string "in")]) in
  let B := ("stylus-event", [PBytes (list_byte_of_string "out")]) in
  let C := ("stylus-event", [PBytes (list_byte_of_string "in")]) in
  let R := ("rotate", [PStr "left-up"]) in
  let s := EventQueue.exec
             [EventQueue.Push "stylus" A; EventQueue.Push "dbus" R;
              EventQueue.Push "stylus" B; EventQueue.Arrive "stylus";
              EventQueue.Arrive "dbus"; EventQueue.Pop;
              EventQueue.Push "stylus" C; EventQueue.Arrive "stylus";
              EventQueue.Arrive "stylus"; EventQueue.Pop; EventQueue.Pop;
              EventQueue.Pop] in
  EventQueue.from "stylus" (EventQueue.popped s) = [A; B; C] /\
  map fst (EventQueue.popped s) = ["stylus"; "dbus"; "stylus"; "stylus"].
Proof. vm_compute. split; reflexivity. Qed.

(** ** Further properties of the default handler *)

Lemma orientation_key_cases (o : string) :
  (exists x y, In (o, x, y) orientation_table) \/
  DefaultEventHandler.xrandr_orientation_map !! o = None.
Proof.
  unfold orientation_table, DefaultEventHandler.xrandr_orientation_map.
  destruct (decide (o = "right-up")) as [-> | H1];
    [left; exists "right", "cw"; simpl; tauto |].
  destruct (decide (o = "normal")) as [-> | H2];
    [left; exists "normal", "none"; simpl; tauto |].
  destruct (decide (o = "bottom-up")) as [-> | H3];
    [left; exists "inverted", "half"; simpl; tauto |].
  destruct (decide (o = "left-up")) as [-> | H4];
    [left; exists "left", "ccw"; simpl; tauto |].
  right. rewrite !lookup_insert_ne by congruence. apply lookup_empty.
Qed.


Lemma tablet_mode_runs (E : env) (w : world) :
  Forall (fun c => call_raises E c = None) (disable_commands (hdl w)) ->
  DefaultEventHandler.on_tablet_mode E w =
  (World
     (match popen_result E onboard_command with
      | inl _ => hdl w
      | inr pid =>
          Handler (is_tablet (hdl w)) (wacom (hdl w)) (stylus (hdl w))
            (finger_touch (hdl w)) (trackpoint (hdl w)) (touchpad (hdl w))
            (Some pid)
      end)
     (message_queue w)
     (logger w ++ LogRecord DEBUG "on tablet mode" [] None ::
        match popen_result E onboard_command with
        | inl e =>
            [LogRecord WARNING "exception while starting onboard: " []
               (Some e)]
        | inr _ => []
        end)
     (actions w ++ map Call (disable_commands (hdl w)) ++
        [Popen onboard_command]),
   Ret tt).
Proof.
  unfold disable_commands, onboard_command. intros Hall.
  inversion Hall as [| c1 l1 H1 Hall1]; subst.
  inversion Hall1 as [| c2 l2 H2 _]; subst.
  unfold DefaultEventHandler.on_tablet_mode, for_each, subprocess_call,
    subprocess_Popen, set_onboard, try_except, bind, log, issue, get_self,
    set_self, ret, raise.
  cbn [hdl message_queue logger actions map]. rewrite H1.
  cbn [hdl message_queue logger actions]. rewrite H2.
  cbn [hdl message_queue logger actions].
  destruct (popen_result E ["nohup"; "onboard"]) as [e | pid];
    cbn [hdl message_queue logger actions];
    rewrite <- !app_assoc; reflexivity.
Qed.

(** X2. When the two disabling commands can be executed, [on_tablet_mode]
    issues them and then tries to start the keyboard, and returns normally
    whether or not that works: a failed launch is logged as a warning and
    leaves the handler object, with any older handle, as it was; a
    successful one stores the new process as the handle. *)
Theorem on_tablet_mode_launch (E : env) (w : world) :
  Forall (fun c => call_raises E c = None) (disable_commands (hdl w)) ->
  DefaultEventHandler.on_tablet_mode E w =
  (World
     (match popen_result E onboard_command with
      | inl _ => hdl w
      | inr pid =>
          Handler (is_tablet (hdl w)) (wacom (hdl w)) (stylus (hdl w))
            (finger_touch (hdl w)) (trackpoint (hdl w)) (touchpad (hdl w))
            (Some pid)
      end)
     (message_queue w)
     (logger w ++ LogRecord DEBUG "on tablet mode" [] None ::
        match popen_result E onboard_command with
        | inl e =>
            [LogRecord WARNING "exception while starting onboard: " []
               (Some e)]
        | inr _ => []
        end)
     (actions w ++ map Call (disable_commands (hdl w)) ++
        [Popen onboard_command]),
   Ret tt).
Proof. exact (tablet_mode_runs E w). Qed.

Lemma on_tablet_mode_launch_witness :
  DefaultEventHandler.on_tablet_mode launch_fails_env
    (run_init sample_handler) =
  (World sample_handler (MQueue [] None)
     [LogRecord DEBUG "on tablet mode" [] None;
      LogRecord WARNING "exception while starting onboard: " []
        (Some (OSError ["nohup"; "onboard"]))]
     [Call ["xinput"; "disable"; "TPPS/2 TrackPoint"];
      Call ["xinput"; "disable"; "SynPS/2 TouchPad"];
      Popen ["nohup"; "onboard"]],
   Ret tt).
Proof.
  apply (on_tablet_mode_launch launch_fails_env (run_init sample_handler)).
  repeat constructor.
Defined.

Lemma laptop_mode_runs (E : env) (w : world) :
  Forall (fun c => call_raises E c = None) (enable_commands (hdl w)) ->
  DefaultEventHandler.on_laptop_mode E w =
  (World (hdl w) (message_queue w)
     (logger w ++ LogRecord DEBUG "on laptop mode" [] None ::
        termination_log E (hdl w))
     (actions w ++ map Call (enable_commands (hdl w)) ++
        termination_actions (hdl w)),
   Ret tt).
Proof.
  unfold enable_commands, termination_log, termination_error,
    termination_actions. intros Hall.
  inversion Hall as [| c1 l1 H1 Hall1]; subst.
  inversion Hall1 as [| c2 l2 H2 _]; subst.
  unfold DefaultEventHandler.on_laptop_mode, for_each, subprocess_call,
    os_kill, try_except, bind, log, issue, get_self, ret, raise.
  cbn [hdl message_queue logger actions map]. rewrite H1.
  cbn [hdl message_queue logger actions]. rewrite H2.
  cbn [hdl message_queue logger actions].
  destruct (onboard (hdl w)) as [pid |];
    cbn [hdl message_queue logger actions].
  - destruct (kill_raises E pid); cbn [hdl message_queue logger actions];
      rewrite <- !app_assoc; reflexivity.
  - rewrite <- !app_assoc, app_nil_r. reflexivity.
Qed.

Lemma on_mode_change_runs_hook (t l : M unit) (w : world) :
  BasicEventHandler.on_mode_change t l w =
  (if negb (is_tablet (hdl w)) then t else l)
    (World (Handler (negb (is_tablet (hdl w))) (wacom (hdl w))
              (stylus (hdl w)) (finger_touch (hdl w)) (trackpoint (hdl w))
              (touchpad (hdl w)) (onboard (hdl w)))
       (message_queue w) (logger w) (actions w)).
Proof.
  unfold BasicEventHandler.on_mode_change, set_is_tablet, bind, get_self,
    set_self. cbn [hdl message_queue logger actions is_tablet].
  reflexivity.
Qed.

(** X3. In laptop mode, with every command executable and a keyboard that
    starts as process [pid], two mode changes in a row both return
    normally and issue, in this order: the two disabling commands, the
    launch of the keyboard, the two enabling commands, and the termination
    signal to that same process [pid]. The handler is back in laptop mode
    and still holds the handle. *)
Theorem mode_change_there_and_back (E : env) (w : world) (pid : nat) :
  is_tablet (hdl w) = false ->
  (forall argv, call_raises E argv = None) ->
  popen_result E onboard_command = inr pid ->
  snd (call_on_mode_change (default_handler E) w) = Ret tt /\
  snd (call_on_mode_change (default_handler E)
         (fst (call_on_mode_change (default_handler E) w))) = Ret tt /\
  hdl (fst (call_on_mode_change (default_handler E)
              (fst (call_on_mode_change (default_handler E) w)))) =
    Handler false (wacom (hdl w)) (stylus (hdl w)) (finger_touch (hdl w))
      (trackpoint (hdl w)) (touchpad (hdl w)) (Some pid) /\
  actions (fst (call_on_mode_change (default_handler E)
                  (fst (call_on_mode_change (default_handler E) w)))) =
    actions w ++ map Call (disable_commands (hdl w)) ++
    [Popen onboard_command] ++ map Call (enable_commands (hdl w)) ++
    [Kill pid].
Proof.
  intros Hmode Hcalls Hpopen.
  cbn [default_handler call_on_mode_change].
  unfold DefaultEventHandler.on_mode_change.
  rewrite on_mode_change_runs_hook, Hmode. cbn [negb].
  rewrite tablet_mode_runs
    by (unfold disable_commands; repeat constructor; apply Hcalls).
  rewrite Hpopen. cbn [fst snd hdl trackpoint touchpad].
  rewrite on_mode_change_runs_hook.
  cbn [hdl is_tablet negb wacom stylus finger_touch trackpoint touchpad
         onboard message_queue logger actions].
  rewrite laptop_mode_runs
    by (unfold enable_commands; repeat constructor; apply Hcalls).
  cbn [fst snd hdl actions]. repeat split.
  unfold termination_actions, enable_commands, disable_commands.
  cbn [onboard hdl trackpoint touchpad map]. rewrite <- !app_assoc.
  reflexivity.
Qed.

Lemma mode_change_there_and_back_witness :
  snd (call_on_mode_change (default_handler quiet_env)
         (run_init sample_handler)) = Ret tt /\
  snd (call_on_mode_change (default_handler quiet_env)
         (fst (call_on_mode_change (default_handler quiet_env)
                 (run_init sample_handler)))) = Ret tt /\
  hdl (fst (call_on_mode_change (default_handler quiet_env)
              (fst (call_on_mode_change (default_handler quiet_env)
                      (run_init sample_handler))))) =
    Handler false (wacom sample_handler) (stylus sample_handler)
      (finger_touch sample_handler) (trackpoint sample_handler)
      (touchpad sample_handler) (Some 4242) /\
  actions (fst (call_on_mode_change (default_handler quiet_env)
                  (fst (call_on_mode_change (default_handler quiet_env)
                          (run_init sample_handler))))) =
    [] ++ map Call (disable_commands sample_handler) ++
    [Popen onboard_command] ++ map Call (enable_commands sample_handler) ++
    [Kill 4242].
Proof.
  apply (mode_change_there_and_back quiet_env (run_init sample_handler)
           4242).
  - reflexivity.
  - reflexivity.
  - reflexivity.
Defined.

(** X4. Neither method ever clears the handle. With a handle [pid] from an
    earlier launch, every command executable and a keyboard that cannot be
    started, entering tablet mode and leaving it again returns normally
    both times, leaves the handler object as it was, and sends the
    termination signal to the old process [pid]. *)
Theorem failed_relaunch_signals_old_process (E : env) (w : world)
    (pid : nat) (e : exn) :
  onboard (hdl w) = Some pid ->
  (forall argv, call_raises E argv = None) ->
  popen_result E onboard_command = inl e ->
  snd (DefaultEventHandler.on_tablet_mode E w) = Ret tt /\
  snd (DefaultEventHandler.on_laptop_mode E
         (fst (DefaultEventHandler.on_tablet_mode E w))) = Ret tt /\
  hdl (fst (DefaultEventHandler.on_laptop_mode E
              (fst (DefaultEventHandler.on_tablet_mode E w)))) = hdl w /\
  actions (fst (DefaultEventHandler.on_laptop_mode E
                  (fst (DefaultEventHandler.on_tablet_mode E w)))) =
    actions w ++ map Call (disable_commands (hdl w)) ++
    [Popen onboard_command] ++ map Call (enable_commands (hdl w)) ++
    [Kill pid].
Proof.
  intros Hh Hcalls Hpopen.
  rewrite tablet_mode_runs
    by (unfold disable_commands; repeat constructor; apply Hcalls).
  rewrite Hpopen. cbn [fst snd].
  rewrite laptop_mode_runs
    by (unfold enable_commands; repeat constructor; apply Hcalls).
  cbn [fst snd hdl actions]. repeat split.
  unfold termination_actions. rewrite Hh. rewrite <- !app_assoc.
  reflexivity.
Qed.

Lemma failed_relaunch_signals_old_process_witness :
  snd (DefaultEventHandler.on_tablet_mode launch_fails_env
         (World (Handler false [] "s" "f" "t" "p" (Some 7))
            (MQueue [] None) [] [])) = Ret tt /\
  snd (DefaultEventHandler.on_laptop_mode launch_fails_env
         (fst (DefaultEventHandler.on_tablet_mode launch_fails_env
                 (World (Handler false [] "s" "f" "t" "p" (Some 7))
                    (MQueue [] None) [] [])))) = Ret tt /\
  hdl (fst (DefaultEventHandler.on_laptop_mode launch_fails_env
              (fst (DefaultEventHandler.on_tablet_mode launch_fails_env
                      (World (Handler false [] "s" "f" "t" "p" (Some 7))
                         (MQueue [] None) [] []))))) =
    Handler false [] "s" "f" "t" "p" (Some 7) /\
  actions (fst (DefaultEventHandler.on_laptop_mode launch_fails_env
                  (fst (DefaultEventHandler.on_tablet_mode launch_fails_env
                          (World (Handler false [] "s" "f" "t" "p" (Some 7))
                             (MQueue [] None) [] []))))) =
    [] ++ map Call (disable_commands (Handler false [] "s" "f" "t" "p" (Some 7))) ++
    [Popen onboard_command] ++
    map Call (enable_commands (Handler false [] "s" "f" "t" "p" (Some 7))) ++
    [Kill 7].
Proof.
  apply (failed_relaunch_signals_old_process launch_fails_env
           (World (Handler false [] "s" "f" "t" "p" (Some 7))
              (MQueue [] None) [] []) 7 (OSError ["nohup"; "onboard"])).
  - reflexivity.
  - reflexivity.
  - reflexivity.
Defined.

(** ** Further properties of the dispatcher *)

(** X5. An event whose name is none of the four the loop knows is
    dropped: after the debug log call nothing else happens, whatever the
    arguments and the handler class; no method is called and nothing is
    raised. *)
Theorem dispatch_unknown_event (H : handler_type) (event : string)
    (args : list pyval) (w : world) :
  ~ In event event_names ->
  dispatch H (event, args) w =
  (World (hdl w) (message_queue w)
     (logger w ++ [LogRecord DEBUG "received event %s" [PStr event] None])
     (actions w),
   Ret tt).
Proof.
  unfold event_names. simpl. intros Hn.
  unfold dispatch, bind, log.
  destruct (String.eqb_spec event "exit") as [-> | _]; [tauto |].
  destruct (String.eqb_spec event "mode-change") as [-> | _]; [tauto |].
  destruct (String.eqb_spec event "rotate") as [-> | _]; [tauto |].
  destruct (String.eqb_spec event "stylus-event") as [-> | _]; [tauto |].
  reflexivity.
Qed.

Lemma dispatch_unknown_event_witness :
  dispatch basic_handler ("suspend", [PStr "now"]) (run_init sample_handler) =
  (World sample_handler (MQueue [] None)
     ([] ++ [LogRecord DEBUG "received event %s" [PStr "suspend"] None])
     [],
   Ret tt).
Proof.
  apply (dispatch_unknown_event basic_handler "suspend" [PStr "now"]
           (run_init sample_handler)).
  unfold event_names. simpl. intros [H | [H | [H | [H | []]]]];
    discriminate H.
Defined.

(** X6. The unpacking of the arguments comes before any call of the
    handler: a rotate or stylus event that does not have exactly one
    argument, and an exit event with fewer than two, raise ValueError with
    only the debug log call made, whatever the handler class. *)
Theorem dispatch_wrong_arity (H : handler_type) (args1 args2 : list pyval)
    (w : world) :
  length args1 <> 1 ->
  length args2 < 2 ->
  dispatch H ("rotate", args1) w =
    (World (hdl w) (message_queue w)
       (logger w ++ [LogRecord DEBUG "received event %s" [PStr "rotate"] None])
       (actions w),
     Raise ValueError) /\
  dispatch H ("stylus-event", args1) w =
    (World (hdl w) (message_queue w)
       (logger w ++
          [LogRecord DEBUG "received event %s" [PStr "stylus-event"] None])
       (actions w),
     Raise ValueError) /\
  dispatch H ("exit", args2) w =
    (World (hdl w) (message_queue w)
       (logger w ++ [LogRecord DEBUG "received event %s" [PStr "exit"] None])
       (actions w),
     Raise ValueError).
Proof.
  intros H1 H2. unfold dispatch, bind, log, raise. cbn [String.eqb].
  repeat split.
  - destruct args1 as [| a [| b r]]; simpl in *; try reflexivity; lia.
  - destruct args1 as [| a [| b r]]; simpl in *; try reflexivity; lia.
  - destruct args2 as [| a [| b r]]; simpl in *; try reflexivity; lia.
Qed.

Lemma dispatch_wrong_arity_witness :
  dispatch basic_handler ("rotate", []) (run_init sample_handler) =
    (World sample_handler (MQueue [] None)
       ([] ++ [LogRecord DEBUG "received event %s" [PStr "rotate"] None])
       [],
     Raise ValueError) /\
  dispatch basic_handler ("stylus-event", []) (run_init sample_handler) =
    (World sample_handler (MQueue [] None)
       ([] ++
          [LogRecord DEBUG "received event %s" [PStr "stylus-event"] None])
       [],
     Raise ValueError) /\
  dispatch basic_handler ("exit", [PStr "acpi_events_watcher"])
    (run_init sample_handler) =
    (World sample_handler (MQueue [] None)
       ([] ++ [LogRecord DEBUG "received event %s" [PStr "exit"] None])
       [],
     Raise ValueError).
Proof.
  apply (dispatch_wrong_arity basic_handler [] [PStr "acpi_events_watcher"]
           (run_init sample_handler)).
  - simpl. lia.
  - simpl. lia.
Defined.

Lemma run_loop_step (H : handler_type) (fuel : nat) (w : world) :
  run_loop H (S fuel) w =
  match items (message_queue w) with
  | [] => (w, Block)
  | m :: q =>
      match dispatch H m
              (World (hdl w) (MQueue q (broken (message_queue w)))
                 (logger w) (actions w)) with
      | (w1, Ret _) => run_loop H fuel w1
      | (w1, Raise e) => (w1, Raise e)
      | (w1, Block) => (w1, Block)
      | (w1, Fuel) => (w1, Fuel)
      end
  end.
Proof.
  cbn [run_loop]. unfold bind, get.
  destruct (items (message_queue w)) as [| m q]; [reflexivity |].
  destruct (dispatch H m _) as [w1 [[] | e | | ]]; reflexivity.
Qed.

Lemma run_loop_exits (H : handler_type) : forall (q : list msg) fuel w,
  forallb is_exit q = true ->
  items (message_queue w) = q ->
  length q < fuel ->
  run_loop H fuel w =
  (World (hdl w) (MQueue [] (broken (message_queue w)))
     (logger w ++ concat (map exit_log q)) (actions w),
   Block).
Proof.
  induction q as [| m q IH]; intros fuel w Hex Hq Hlen;
    (destruct fuel as [| fuel]; [simpl in Hlen; lia |]);
    rewrite run_loop_step, Hq.
  - simpl. rewrite app_nil_r. destruct w as [h [its br] lg acts].
    simpl in *. subst its. reflexivity.
  - simpl in Hex. apply andb_prop in Hex as [Hm Hrest].
    destruct m as [event [| name [| reason rest]]]; try discriminate Hm.
    simpl in Hm. apply String.eqb_eq in Hm. subst event.
    unfold dispatch, bind, log. cbn [String.eqb Ascii.eqb Bool.eqb].
    cbn [hdl message_queue logger actions items broken].
    rewrite IH; try assumption; try reflexivity.
    + cbn [hdl message_queue logger actions items broken map concat
             exit_log].
      rewrite <- !app_assoc. reflexivity.
    + simpl in Hlen. lia.
Qed.

(** X8. Exit events never stop the loop and never reach the handler: with
    any number of them on the queue (the same watcher may be named more
    than once), the loop pops them all, makes its two log calls for each,
    in order, and waits for the next event with the handler object and the
    action surface untouched, whatever the handler class. *)
Theorem run_loop_only_logs_exits (H : handler_type) (q : list msg)
    (fuel : nat) (w : world) :
  forallb is_exit q = true ->
  items (message_queue w) = q ->
  length q < fuel ->
  run_loop H fuel w =
  (World (hdl w) (MQueue [] (broken (message_queue w)))
     (logger w ++ concat (map exit_log q)) (actions w),
   Block).
Proof. apply run_loop_exits. Qed.

Lemma run_loop_only_logs_exits_witness :
  run_loop basic_handler 3
    (run_with sample_handler
       [exit_msg "dbus_events_watcher" (OtherError "DBusException");
        exit_msg "dbus_events_watcher" (OtherError "DBusException")]) =
  (World sample_handler (MQueue [] None)
     ([] ++
      concat (map exit_log
                [exit_msg "dbus_events_watcher" (OtherError "DBusException");
                 exit_msg "dbus_events_watcher"
                   (OtherError "DBusException")]))
     [],
   Block).
Proof.
  apply (run_loop_only_logs_exits basic_handler
           [exit_msg "dbus_events_watcher" (OtherError "DBusException");
            exit_msg "dbus_events_watcher" (OtherError "DBusException")]
           3
           (run_with sample_handler
              [exit_msg "dbus_events_watcher" (OtherError "DBusException");
               exit_msg "dbus_events_watcher"
                 (OtherError "DBusException")])).
  - reflexivity.
  - reflexivity.
  - simpl. lia.
Defined.

(** ** Further properties of the socket watcher *)

Lemma read_line_stream_line : forall (cs : list bytes) buf fuel en,
  length cs < fuel ->
  bytes_in nl (buf ++ concat cs) = true ->
  exists line rest cs',
    read_line fuel (MkSocketWrapper buf (StreamSocket cs en)) =
      (MkSocketWrapper rest (StreamSocket cs' en), Ret line) /\
    buf ++ concat cs = line ++ nl :: rest ++ concat cs' /\
    bytes_in nl line = false /\
    length cs' <= length cs.
Proof.
  induction cs as [| c cs IH]; intros buf fuel en Hf Hin.
  - simpl in Hin. rewrite app_nil_r in Hin.
    destruct (bytes_split_first _ Hin) as (l & r & Hs & Hb & Hl).
    exists l, r, []. destruct fuel; [lia |]. simpl.
    rewrite Hin, Hs, !app_nil_r. auto.
  - destruct fuel as [| fuel]; [simpl in Hf; lia |].
    destruct (bytes_in nl buf) eqn:Hbuf.
    + destruct (bytes_split_first _ Hbuf) as (l & r & Hs & Hb & Hl).
      exists l, r, (c :: cs). simpl. rewrite Hbuf, Hs. subst buf.
      rewrite <- app_assoc. auto.
    + destruct (IH (buf ++ c) fuel en)
        as (l & r & cs' & Hr & Hb & Hl & Hlen).
      * simpl in Hf. lia.
      * rewrite <- app_assoc. exact Hin.
      * exists l, r, cs'. simpl. rewrite Hbuf. simpl in Hr. rewrite Hr.
        rewrite <- app_assoc in Hb. simpl in *. auto with arith.
Qed.

Lemma read_line_stream_end : forall (cs : list bytes) buf fuel en,
  length cs < fuel ->
  bytes_in nl (buf ++ concat cs) = false ->
  snd (read_line fuel (MkSocketWrapper buf (StreamSocket cs en))) =
  match en with
  | Waits => Block
  | Eof => Fuel
  | Fails e => Raise e
  end.
Proof.
  induction cs as [| c cs IH]; intros buf fuel en Hf Hin.
  - simpl in Hin. rewrite app_nil_r in Hin. destruct en as [| | e].
    + destruct fuel; [lia |]. simpl. rewrite Hin. reflexivity.
    + apply (read_line_starves (fun s => s = StreamSocket [] Eof));
        auto.
      intros s ->. exists [], (StreamSocket [] Eof). auto.
    + destruct fuel; [lia |]. simpl. rewrite Hin. reflexivity.
  - destruct fuel as [| fuel]; [simpl in Hf; lia |].
    simpl in Hin. rewrite !bytes_in_app in Hin.
    apply orb_false_elim in Hin as [Hb Hr]. simpl. rewrite Hb.
    apply IH.
    + simpl in Hf. lia.
    + rewrite !bytes_in_app, Hb. exact Hr.
Qed.

Lemma acpi_events_loop_stream : forall n (cs : list bytes) buf fuel w en,
  broken (message_queue w) = None ->
  length cs < fuel ->
  length (complete_records (buf ++ concat cs)) < n ->
  snd (acpi_events_loop fuel n (MkSocketWrapper buf (StreamSocket cs en)) w)
    = ending_result en /\
  message_queue
    (fst (acpi_events_loop fuel n
            (MkSocketWrapper buf (StreamSocket cs en)) w)) =
  MQueue (items (message_queue w) ++ mode_changes (buf ++ concat cs)) None.
Proof.
  induction n as [| n IH]; intros cs buf fuel w en Hq Hf Hn; [lia |].
  simpl. destruct (bytes_in nl (buf ++ concat cs)) eqn:Hin.
  - destruct (read_line_stream_line cs buf fuel en Hf Hin)
      as (l & r & cs' & Hr & Hb & Hl & Hlen).
    rewrite Hr. unfold bind.
    destruct (acpi_event_puts l w Hq) as (w' & He & Hq' & Hi).
    rewrite He. rewrite Hb in Hn |- *.
    rewrite complete_records_first in Hn by exact Hl. simpl in Hn.
    destruct (IH cs' r fuel w' en Hq') as [Hres Hitems]; [lia | lia |].
    split; [exact Hres |].
    rewrite Hitems, Hi, mode_changes_first by exact Hl.
    rewrite <- app_assoc. reflexivity.
  - pose proof (read_line_stream_end cs buf fuel en Hf Hin) as Hb.
    destruct (read_line fuel _) as [sw' r]. simpl in Hb. subst r.
    unfold mode_changes. rewrite complete_records_none by exact Hin.
    simpl. rewrite app_nil_r.
    destruct en; simpl; (split; [reflexivity |]);
      destruct (message_queue w) as [its br]; simpl in *; subst br;
      reflexivity.
Qed.

(** What is put when the socket fails. When the socket fails with [e]
    after delivering some chunks, the wrapped socket watcher first puts one
    mode-change event for every complete record with the prefix, then the
    wrapper puts the exit tuple naming the watcher and holding
    [sys.exc_info()], and returns normally. When the connection itself
    fails with [e], the exit tuple is all that is put. *)
Lemma socket_failure_puts (name : string) (cs : list bytes)
    (e : exn) (fuel : nat) (w : world) :
  broken (message_queue w) = None ->
  length cs + length (concat cs) < fuel ->
  snd (process_wrapper name
         (fun _ _ => acpi_events_watcher fuel
                       (inr (StreamSocket cs (Fails e)))) ([], ∅) w) =
    Ret tt /\
  message_queue
    (fst (process_wrapper name
            (fun _ _ => acpi_events_watcher fuel
                          (inr (StreamSocket cs (Fails e)))) ([], ∅) w)) =
    MQueue (items (message_queue w) ++ mode_changes (concat cs) ++
              [("exit", [PStr name; PStr "uncaught-exception";
                         PExcInfo e])]) None /\
  message_queue
    (fst (process_wrapper name
            (fun _ _ => @acpi_events_watcher stream_socket _ fuel (inl e))
            ([], ∅) w)) =
    MQueue (items (message_queue w) ++
              [("exit", [PStr name; PStr "uncaught-exception";
                         PExcInfo e])]) None.
Proof.
  intros Hq Hf.
  unfold process_wrapper, try_except, bind, log at 1 3 5.
  unfold acpi_events_watcher.
  match goal with
  | |- context [acpi_events_loop fuel fuel ?sw ?w0] =>
      destruct (acpi_events_loop_stream fuel cs [] fuel w0 (Fails e))
        as [Hres Hmq];
      [exact Hq | lia
      | simpl; pose proof (complete_records_length (concat cs)); lia |];
      destruct (acpi_events_loop fuel fuel sw w0) as [w1 r] eqn:Hloop
  end.
  simpl in Hres, Hmq. subst r. unfold log, put, exit_msg, ret, raise.
  cbn [message_queue hdl logger actions fst snd]. rewrite Hmq.
  cbn [broken items fst snd message_queue]. rewrite Hq.
  cbn [fst snd message_queue]. rewrite <- app_assoc. auto.
Qed.

Lemma mode_changes_picklable (stream : bytes) :
  List.filter picklable_msg (mode_changes stream) = mode_changes stream.
Proof.
  unfold mode_changes.
  induction (List.filter (startswith EV_TABLET_MODE) _) as [| x l IH];
    simpl; [| rewrite IH]; reflexivity.
Qed.

(** X9. A failure of the socket is not seen by the dispatcher. When the
    socket fails with [e] after delivering some chunks, the wrapped socket
    watcher returns normally and the dispatcher can receive, after what it
    could receive before, one mode-change event for every complete record
    with the prefix and nothing more: the exit tuple the wrapper puts
    holds [sys.exc_info()], cannot be pickled and is dropped by the queue.
    When the connection itself fails with [e], nothing new can be
    received at all. *)
Theorem socket_failure_is_not_delivered (name : string) (cs : list bytes)
    (e : exn) (fuel : nat) (w : world) :
  broken (message_queue w) = None ->
  length cs + length (concat cs) < fuel ->
  snd (process_wrapper name
         (fun _ _ => acpi_events_watcher fuel
                       (inr (StreamSocket cs (Fails e)))) ([], ∅) w) =
    Ret tt /\
  delivered
    (message_queue
       (fst (process_wrapper name
               (fun _ _ => acpi_events_watcher fuel
                             (inr (StreamSocket cs (Fails e))))
               ([], ∅) w))) =
    delivered (message_queue w) ++ mode_changes (concat cs) /\
  delivered
    (message_queue
       (fst (process_wrapper name
               (fun _ _ => @acpi_events_watcher stream_socket _ fuel (inl e))
               ([], ∅) w))) =
    delivered (message_queue w).
Proof.
  intros Hq Hf.
  destruct (socket_failure_puts name cs e fuel w Hq Hf) as (Hr & H1 & H2).
  split; [exact Hr |]. rewrite H1, H2. unfold delivered. cbn [items].
  rewrite !filter_picklable_app, mode_changes_picklable. cbn.
  rewrite !app_nil_r. split; reflexivity.
Qed.

Lemma socket_failure_is_not_delivered_witness :
  snd (process_wrapper "acpi_events_watcher"
         (fun _ _ => acpi_events_watcher 100
                       (inr (StreamSocket sample_chunks
                               (Fails (OtherError "ConnectionResetError")))))
         ([], ∅) (run_init sample_handler)) =
    Ret tt /\
  delivered
    (message_queue
       (fst (process_wrapper "acpi_events_watcher"
               (fun _ _ => acpi_events_watcher 100
                             (inr (StreamSocket sample_chunks
                                     (Fails
                                        (OtherError "ConnectionResetError")))))
               ([], ∅) (run_init sample_handler)))) =
    delivered (message_queue (run_init sample_handler)) ++
    mode_changes (concat sample_chunks) /\
  delivered
    (message_queue
       (fst (process_wrapper "acpi_events_watcher"
               (fun _ _ => @acpi_events_watcher stream_socket _ 100
                             (inl (OtherError "ConnectionResetError")))
               ([], ∅) (run_init sample_handler)))) =
    delivered (message_queue (run_init sample_handler)).
Proof.
  apply (socket_failure_is_not_delivered "acpi_events_watcher" sample_chunks
           (OtherError "ConnectionResetError") 100
           (run_init sample_handler)).
  - reflexivity.
  - vm_compute. lia.
Defined.

(** X10. The end of the stream is never reported. When the peer closes
    the connection after delivering some chunks, the wrapped socket
    watcher puts one mode-change event for every complete record with the
    prefix and is then still running, however many calls of [recv] it is
    allowed: it does not return, nothing is raised, and no exit event is
    put. *)
Theorem end_of_stream_is_not_reported (name : string) (cs : list bytes)
    (fuel : nat) (w : world) :
  broken (message_queue w) = None ->
  length cs + length (concat cs) < fuel ->
  snd (process_wrapper name
         (fun _ _ => acpi_events_watcher fuel (inr (StreamSocket cs Eof)))
         ([], ∅) w) = Fuel /\
  message_queue
    (fst (process_wrapper name
            (fun _ _ => acpi_events_watcher fuel
                          (inr (StreamSocket cs Eof))) ([], ∅) w)) =
    MQueue (items (message_queue w) ++ mode_changes (concat cs)) None.
Proof.
  intros Hq Hf.
  unfold process_wrapper, try_except, bind, log at 1 3.
  unfold acpi_events_watcher.
  match goal with
  | |- context [acpi_events_loop fuel fuel ?sw ?w0] =>
      destruct (acpi_events_loop_stream fuel cs [] fuel w0 Eof)
        as [Hres Hmq];
      [exact Hq | lia
      | simpl; pose proof (complete_records_length (concat cs)); lia |];
      destruct (acpi_events_loop fuel fuel sw w0) as [w1 r] eqn:Hloop
  end.
  simpl in Hres, Hmq. subst r. cbn [fst snd]. auto.
Qed.

Lemma end_of_stream_is_not_reported_witness :
  snd (process_wrapper "acpi_events_watcher"
         (fun _ _ => acpi_events_watcher 100
                       (inr (StreamSocket sample_chunks Eof)))
         ([], ∅) (run_init sample_handler)) = Fuel /\
  message_queue
    (fst (process_wrapper "acpi_events_watcher"
            (fun _ _ => acpi_events_watcher 100
                          (inr (StreamSocket sample_chunks Eof)))
            ([], ∅) (run_init sample_handler))) =
    MQueue ([] ++ mode_changes (concat sample_chunks)) None.
Proof.
  apply (end_of_stream_is_not_reported "acpi_events_watcher" sample_chunks
           100 (run_init sample_handler)).
  - reflexivity.
  - vm_compute. lia.
Defined.

(** X11. A line that is already in the buffer is returned without a call
    of [recv]: whatever the fuel, even none, [read_line] returns the bytes
    before the first newline, keeps the bytes after it in the buffer, and
    leaves the socket as it was. Nothing is lost: line, newline and the new
    buffer make up the old buffer. *)
Theorem read_line_from_buffer {S : Type} {Sk : Socket S} (fuel : nat)
    (self : SocketWrapper S) :
  bytes_in nl (buffer self) = true ->
  exists line rest,
    read_line fuel self = (MkSocketWrapper rest (sock self), Ret line) /\
    buffer self = line ++ nl :: rest /\
    bytes_in nl line = false.
Proof.
  intros Hin. destruct (bytes_split_first _ Hin) as (l & r & Hs & Hb & Hl).
  exists l, r. destruct fuel; simpl; rewrite Hin, Hs; auto.
Qed.

Lemma read_line_from_buffer_witness :
  exists line rest,
    read_line 0
      (MkSocketWrapper (list_byte_of_string (unlines ["a"; "b"; "c"]))
         closed_socket) =
      (MkSocketWrapper rest closed_socket, Ret line) /\
    list_byte_of_string (unlines ["a"; "b"; "c"]) = line ++ nl :: rest /\
    bytes_in nl line = false.
Proof.
  apply (read_line_from_buffer 0
           (MkSocketWrapper (list_byte_of_string (unlines ["a"; "b"; "c"]))
              closed_socket)).
  reflexivity.
Defined.

Lemma startswith_iff (p b : bytes) :
  startswith p b = true <-> exists r, b = p ++ r.
Proof.
  revert b. induction p as [| x p IH]; intros b; simpl.
  - split; eauto.
  - destruct b as [| y b].
    + split; [discriminate | intros [r Hr]; discriminate].
    + rewrite andb_true_iff, IH. split.
      * intros [Hxy [r ->]]. apply Byte.byte_dec_bl in Hxy. subst y. eauto.
      * intros [r Hr]. inversion Hr; subst. split; eauto.
        now apply Byte.byte_dec_lb.
Qed.

(** X12. On a working queue the socket watcher answers a record with
    exactly one mode-change event when the record is [EV_TABLET_MODE]
    followed by any bytes, and with nothing otherwise; in both cases it
    returns normally. *)
Theorem acpi_event_recognises_prefix (event : bytes) (w : world) :
  broken (message_queue w) = None ->
  snd (acpi_event event w) = Ret tt /\
  ((exists rest, event = EV_TABLET_MODE ++ rest) /\
   items (message_queue (fst (acpi_event event w))) =
     items (message_queue w) ++ [("mode-change", [])]
   \/
   (forall rest, event <> EV_TABLET_MODE ++ rest) /\
   items (message_queue (fst (acpi_event event w))) =
     items (message_queue w)).
Proof.
  intros Hq. destruct (acpi_event_puts event w Hq) as (w' & He & _ & Hi).
  rewrite He. cbn [fst snd]. split; [reflexivity |]. rewrite Hi.
  destruct (startswith EV_TABLET_MODE event) eqn:Hs.
  - left. split; [| reflexivity]. now apply startswith_iff.
  - right. split; [| now rewrite app_nil_r]. intros rest Heq.
    assert (startswith EV_TABLET_MODE event = true) as Ht
      by (apply startswith_iff; eauto).
    congruence.
Qed.

Lemma acpi_event_recognises_prefix_witness :
  snd (acpi_event (EV_TABLET_MODE ++ list_byte_of_string " 00000001")
         (run_init sample_handler)) = Ret tt /\
  ((exists rest,
      EV_TABLET_MODE ++ list_byte_of_string " 00000001" =
      EV_TABLET_MODE ++ rest) /\
   items (message_queue
            (fst (acpi_event
                    (EV_TABLET_MODE ++ list_byte_of_string " 00000001")
                    (run_init sample_handler)))) =
     items (message_queue (run_init sample_handler)) ++
     [("mode-change", [])]
   \/
   (forall rest,
      EV_TABLET_MODE ++ list_byte_of_string " 00000001" <>
      EV_TABLET_MODE ++ rest) /\
   items (message_queue
            (fst (acpi_event
                    (EV_TABLET_MODE ++ list_byte_of_string " 00000001")
                    (run_init sample_handler)))) =
     items (message_queue (run_init sample_handler))).
Proof.
  apply (acpi_event_recognises_prefix
           (EV_TABLET_MODE ++ list_byte_of_string " 00000001")
           (run_init sample_handler)).
  reflexivity.
Defined.

(** ** Further properties of the proximity watcher *)

Lemma bytes_split_whole (sep : byte) (a : bytes) :
  bytes_in sep a = false -> bytes_split sep None a = [a].
Proof.
  induction a as [| c a IH]; simpl; intros Hin.
  - reflexivity.
  - apply orb_false_elim in Hin as [Hc Ha]. rewrite Hc. simpl.
    rewrite IH by exact Ha. reflexivity.
Qed.

Lemma bytes_split_field (sep : byte) (a r : bytes) :
  bytes_in sep a = false ->
  bytes_split sep None (a ++ sep :: r) = a :: bytes_split sep None r.
Proof.
  induction a as [| c a IH]; simpl; intros Hin.
  - assert (Byte.eqb sep sep = true) as -> by now apply Byte.byte_dec_lb.
    reflexivity.
  - apply orb_false_elim in Hin as [Hc Ha]. rewrite Hc. simpl.
    rewrite IH by exact Ha. reflexivity.
Qed.

(** X13. For a line made of the token [proximity], a space, and a status
    without a space that is followed by a space or by the end of the line,
    the proximity watcher puts exactly one stylus event carrying that
    status, on a working queue, and returns normally. *)
Theorem stylus_line_reports_status (status rest : bytes) (w : world) :
  broken (message_queue w) = None ->
  bytes_in sp status = false ->
  rest = [] \/ (exists r, rest = sp :: r) ->
  stylus_line (proximity_token ++ sp :: status ++ rest) w =
  (World (hdl w)
     (MQueue (items (message_queue w) ++
                [("stylus-event", [PBytes status])]) None)
     (logger w ++
        [LogRecord DEBUG "xinput stdout: %s"
           [PBytes (proximity_token ++ sp :: status ++ rest)] None])
     (actions w),
   Ret tt).
Proof.
  intros Hq Hst Hrest. unfold stylus_line, bind, log.
  fold proximity_token.
  assert (Hsw : startswith proximity_token
                  (proximity_token ++ sp :: status ++ rest) = true)
    by (apply startswith_iff; eauto).
  rewrite Hsw. cbn [negb].
  rewrite (bytes_split_field sp proximity_token) by reflexivity.
  assert (Hf : (proximity_token :: bytes_split sp None (status ++ rest))
               !! 1 = Some status).
  { destruct Hrest as [-> | [r ->]].
    - rewrite app_nil_r, bytes_split_whole by exact Hst. reflexivity.
    - rewrite bytes_split_field by exact Hst. reflexivity. }
  rewrite Hf. unfold put. cbn [message_queue]. rewrite Hq. reflexivity.
Qed.

Lemma stylus_line_reports_status_witness :
  stylus_line
    (proximity_token ++ sp :: list_byte_of_string "in" ++
       list_byte_of_string "  a[0]=1")
    (run_init sample_handler) =
  (World (hdl (run_init sample_handler))
     (MQueue (items (message_queue (run_init sample_handler)) ++
                [("stylus-event", [PBytes (list_byte_of_string "in")])])
        None)
     (logger (run_init sample_handler) ++
        [LogRecord DEBUG "xinput stdout: %s"
           [PBytes (proximity_token ++ sp :: list_byte_of_string "in" ++
                      list_byte_of_string "  a[0]=1")] None])
     (actions (run_init sample_handler)),
   Ret tt).
Proof.
  apply (stylus_line_reports_status (list_byte_of_string "in")
           (list_byte_of_string "  a[0]=1") (run_init sample_handler)).
  - reflexivity.
  - reflexivity.
  - right. exists (list_byte_of_string " a[0]=1"). reflexivity.
Defined.

(** X14. A line that starts with the token [proximity] and has no space
    anywhere has no second field: the index raises IndexError after the
    debug log call, and nothing is put on the queue. *)
Theorem stylus_line_without_space (line : bytes) (w : world) :
  startswith proximity_token line = true ->
  bytes_in sp line = false ->
  stylus_line line w =
  (World (hdl w) (message_queue w)
     (logger w ++ [LogRecord DEBUG "xinput stdout: %s" [PBytes line] None])
     (actions w),
   Raise IndexError).
Proof.
  intros Hsw Hsp. unfold stylus_line, bind, log. fold proximity_token.
  rewrite Hsw. cbn [negb]. rewrite bytes_split_whole by exact Hsp.
  reflexivity.
Qed.

Lemma stylus_line_without_space_witness :
  stylus_line (list_byte_of_string "proximity-in") (run_init sample_handler)
  =
  (World (hdl (run_init sample_handler))
     (message_queue (run_init sample_handler))
     (logger (run_init sample_handler) ++
        [LogRecord DEBUG "xinput stdout: %s"
           [PBytes (list_byte_of_string "proximity-in")] None])
     (actions (run_init sample_handler)),
   Raise IndexError).
Proof.
  apply (stylus_line_without_space (list_byte_of_string "proximity-in")
           (run_init sample_handler)).
  - reflexivity.
  - reflexivity.
Defined.

Lemma find_none_of {A} (f : A -> bool) (l : list A) :
  (forall x, In x l -> f x = false) -> List.find f l = None.
Proof.
  induction l as [| a l IH]; simpl; intros Hall.
  - reflexivity.
  - rewrite (Hall a) by auto. apply IH. auto.
Qed.

(** X15. When the listing the proximity watcher obtains first has no line
    that contains 'stylus', the watcher raises RuntimeError 'stylus not
    found' right after the listing: the proximity test is not started, and
    nothing is logged or put. *)
Theorem stylus_not_found (E : env) (out : string) (w : world) :
  check_output E xinput_list = inr out ->
  (forall x, In x (str_split newline_char out) ->
             str_in "stylus" x = false) ->
  stylus_events_watcher E w = (w, Raise (RuntimeError "stylus not found")).
Proof.
  unfold xinput_list, newline_char. intros Hout Hnone.
  unfold stylus_events_watcher. rewrite Hout.
  unfold bind, try_except, next_stylus.
  rewrite (find_none_of _ _ Hnone). reflexivity.
Qed.

Lemma stylus_not_found_witness :
  stylus_events_watcher no_stylus_env (run_init sample_handler) =
  (run_init sample_handler, Raise (RuntimeError "stylus not found")).
Proof.
  apply (stylus_not_found no_stylus_env "Virtual core pointer"
           (run_init sample_handler)).
  - reflexivity.
  - intros x [<- | []]. reflexivity.
Defined.

(** ** Construction of the handler *)

Lemma str_split_cons (c : ascii) (s : string) :
  exists x xs, str_split c s = x :: xs.
Proof.
  induction s as [| a s IH]; simpl.
  - eauto.
  - destruct (Ascii.eqb a c); [eauto |].
    destruct IH as (x & xs & ->). eauto.
Qed.

Lemma list_comp_first_field (l : list string) (w : world) :
  list_comp first_field l w =
  (w, Ret (map (fun i => hd EmptyString (str_split tab_char i)) l)).
Proof.
  induction l as [| i l IH]; simpl.
  - reflexivity.
  - unfold bind at 1. unfold first_field at 1.
    destruct (str_split_cons tab_char i) as (x & xs & Hs). rewrite Hs.
    simpl. unfold bind at 1. rewrite IH. reflexivity.
Qed.

Lemma for_each_log (lv : level) (f : string) (l : list string) :
  forall w,
    for_each l (fun i => log lv f [PStr i] None) w =
    (World (hdl w) (message_queue w)
       (logger w ++ map (fun i => LogRecord lv f [PStr i] None) l)
       (actions w), Ret tt).
Proof.
  induction l as [| i l IH]; intros w; simpl.
  - rewrite app_nil_r. now destruct w.
  - unfold bind at 1. unfold log at 1. rewrite IH. simpl.
    rewrite <- app_assoc. reflexivity.
Qed.

(** The first half of [initialize]: the stylus-class devices. *)
Lemma initialize_devices (E : env) (w : world) (out1 : string) :
  check_output E xsetwacom_list = inr out1 ->
  __init__ E w =
  (let w1 :=
     World (Handler (is_tablet (hdl w)) (wacom_fields out1) (stylus (hdl w))
              (finger_touch (hdl w)) (trackpoint (hdl w)) (touchpad (hdl w))
              (onboard (hdl w)))
       (message_queue w)
       (logger w ++
          map (fun i => LogRecord INFO "Wacom device detected: %s" [PStr i]
                          None) (wacom_fields out1))
       (actions w) in
   (match check_output E xinput_list with
    | inl e => raise e
    | inr out2 =>
        let xinput := str_split newline_char out2 in
        x <- next_containing "stylus" xinput ;; set_stylus x ;;
        x <- next_containing "Finger touch" xinput ;; set_finger_touch x ;;
        x <- next_containing "TrackPoint" xinput ;; set_trackpoint x ;;
        x <- next_containing "TouchPad" xinput ;; set_touchpad x ;;
        self <- get_self ;;
        log INFO
          "xinput devices detected: stylus = %s, finger touch = %s, trackpoint = %s, touchpad = %s"
          [PStr (stylus self); PStr (finger_touch self);
           PStr (trackpoint self); PStr (touchpad self)] None
    end ;;
    set_is_tablet false) w1).
Proof.
  intros H1. unfold __init__, initialize. rewrite H1.
  unfold bind at 1. unfold bind at 1. rewrite list_comp_first_field.
  unfold bind at 1. unfold set_wacom at 1. unfold bind at 1.
  unfold get_self at 1. unfold set_self at 1.
  unfold bind at 1. unfold get_self at 1.
  cbn [hdl wacom message_queue logger actions].
  unfold bind at 1. rewrite for_each_log.
  cbn [hdl wacom message_queue logger actions].
  reflexivity.
Qed.

Ltac init_chain :=
  unfold bind, next_containing, set_stylus, set_finger_touch,
    set_trackpoint, set_touchpad, set_is_tablet, get_self, set_self, log,
    ret, raise;
  cbn [hdl message_queue logger actions is_tablet wacom stylus finger_touch
         trackpoint touchpad onboard fst snd].

Lemma init_returns (E : env) (w w' : world) :
  __init__ E w = (w', Ret tt) ->
  exists out1 out2,
    check_output E xsetwacom_list = inr out1 /\
    check_output E xinput_list = inr out2 /\
    is_tablet (hdl w') = false /\
    wacom (hdl w') = wacom_fields out1 /\
    List.find (str_in "stylus") (str_split newline_char out2) =
      Some (stylus (hdl w')) /\
    List.find (str_in "Finger touch") (str_split newline_char out2) =
      Some (finger_touch (hdl w')) /\
    List.find (str_in "TrackPoint") (str_split newline_char out2) =
      Some (trackpoint (hdl w')) /\
    List.find (str_in "TouchPad") (str_split newline_char out2) =
      Some (touchpad (hdl w')) /\
    onboard (hdl w') = onboard (hdl w) /\
    actions w' = actions w /\
    message_queue w' = message_queue w.
Proof.
  destruct (check_output E xsetwacom_list) as [e1 | out1] eqn:H1.
  { unfold __init__, initialize. rewrite H1. discriminate. }
  rewrite (initialize_devices E w out1 H1). cbv zeta.
  destruct (check_output E xinput_list) as [e2 | out2] eqn:H2.
  { discriminate. }
  exists out1, out2. revert H. init_chain.
  destruct (List.find (str_in "stylus") _) as [sty |]; [| discriminate].
  init_chain.
  destruct (List.find (str_in "Finger touch") _) as [ft |];
    [| discriminate].
  init_chain.
  destruct (List.find (str_in "TrackPoint") _) as [tp |]; [| discriminate].
  init_chain.
  destruct (List.find (str_in "TouchPad") _) as [pad |]; [| discriminate].
  init_chain.
  intros Heq. inversion Heq; subst. simpl. repeat split; reflexivity.
Qed.

(** X16. When the constructor of the default handler returns, both
    listings were obtained, the handler is in laptop mode, its stylus-class
    devices are the first tab-separated fields of the non-empty lines of
    the first listing, and each of its four named devices is the first
    line of the second listing that contains 'stylus', 'Finger touch',
    'TrackPoint' and 'TouchPad' respectively. No command was issued on the
    action surface, the queue is untouched and no keyboard handle is
    set. *)
Theorem init_finds_devices (E : env) (w w' : world) :
  __init__ E w = (w', Ret tt) ->
  exists out1 out2,
    check_output E xsetwacom_list = inr out1 /\
    check_output E xinput_list = inr out2 /\
    is_tablet (hdl w') = false /\
    wacom (hdl w') = wacom_fields out1 /\
    List.find (str_in "stylus") (str_split newline_char out2) =
      Some (stylus (hdl w')) /\
    List.find (str_in "Finger touch") (str_split newline_char out2) =
      Some (finger_touch (hdl w')) /\
    List.find (str_in "TrackPoint") (str_split newline_char out2) =
      Some (trackpoint (hdl w')) /\
    List.find (str_in "TouchPad") (str_split newline_char out2) =
      Some (touchpad (hdl w')) /\
    onboard (hdl w') = onboard (hdl w) /\
    actions w' = actions w /\
    message_queue w' = message_queue w.
Proof. apply init_returns. Qed.

Lemma init_finds_devices_witness :
  exists out1 out2,
    check_output convertible_env xsetwacom_list = inr out1 /\
    check_output convertible_env xinput_list = inr out2 /\
    is_tablet (hdl (fst (__init__ convertible_env
                           (run_init blank_handler)))) = false /\
    wacom (hdl (fst (__init__ convertible_env (run_init blank_handler)))) =
      wacom_fields out1 /\
    List.find (str_in "stylus") (str_split newline_char out2) =
      Some (stylus (hdl (fst (__init__ convertible_env
                                (run_init blank_handler))))) /\
    List.find (str_in "Finger touch") (str_split newline_char out2) =
      Some (finger_touch (hdl (fst (__init__ convertible_env
                                      (run_init blank_handler))))) /\
    List.find (str_in "TrackPoint") (str_split newline_char out2) =
      Some (trackpoint (hdl (fst (__init__ convertible_env
                                    (run_init blank_handler))))) /\
    List.find (str_in "TouchPad") (str_split newline_char out2) =
      Some (touchpad (hdl (fst (__init__ convertible_env
                                  (run_init blank_handler))))) /\
    onboard (hdl (fst (__init__ convertible_env (run_init blank_handler)))) =
      onboard (hdl (run_init blank_handler)) /\
    actions (fst (__init__ convertible_env (run_init blank_handler))) =
      actions (run_init blank_handler) /\
    message_queue (fst (__init__ convertible_env (run_init blank_handler))) =
      message_queue (run_init blank_handler).
Proof.
  apply (init_finds_devices convertible_env (run_init blank_handler)
           (fst (__init__ convertible_env (run_init blank_handler)))).
  vm_compute. reflexivity.
Defined.

(** On the sample convertible the constructor builds the sample handler. *)
Example init_on_convertible :
  hdl (fst (__init__ convertible_env (run_init blank_handler))) =
  sample_handler.
Proof. vm_compute. reflexivity. Qed.

(** X17. When both listings are obtained but no line of the second one
    contains one of the four patterns, the constructor raises
    StopIteration, so there is no handler to dispatch to; nothing has been
    issued on the action surface. *)
Theorem init_stops_without_device (E : env) (w : world)
    (out1 out2 pat : string) :
  check_output E xsetwacom_list = inr out1 ->
  check_output E xinput_list = inr out2 ->
  In pat device_patterns ->
  (forall x, In x (str_split newline_char out2) -> str_in pat x = false) ->
  snd (__init__ E w) = Raise StopIteration /\
  actions (fst (__init__ E w)) = actions w.
Proof.
  intros H1 H2 Hpat Hnone.
  pose proof (find_none_of _ _ Hnone) as Hf.
  rewrite (initialize_devices E w out1 H1). cbv zeta. rewrite H2.
  init_chain.
  destruct (List.find (str_in "stylus") _) as [sty |] eqn:F1;
    [| split; reflexivity].
  init_chain.
  destruct (List.find (str_in "Finger touch") _) as [ft |] eqn:F2;
    [| split; reflexivity].
  init_chain.
  destruct (List.find (str_in "TrackPoint") _) as [tp |] eqn:F3;
    [| split; reflexivity].
  init_chain.
  destruct (List.find (str_in "TouchPad") _) as [pad |] eqn:F4;
    [| split; reflexivity].
  unfold device_patterns in Hpat.
  destruct Hpat as [<- | [<- | [<- | [<- | []]]]]; congruence.
Qed.

Lemma init_stops_without_device_witness :
  snd (__init__ no_stylus_env (run_init blank_handler)) =
    Raise StopIteration /\
  actions (fst (__init__ no_stylus_env (run_init blank_handler))) =
    actions (run_init blank_handler).
Proof.
  apply (init_stops_without_device no_stylus_env (run_init blank_handler)
           "Virtual core pointer" "Virtual core pointer" "TouchPad").
  - reflexivity.
  - reflexivity.
  - unfold device_patterns. simpl. tauto.
  - intros x [<- | []]. reflexivity.
Defined.

(** ** Watchers and dispatcher together *)

Lemma log_keeps_actions l fm args ei : preserves actions (log l fm args ei).
Proof. intros w. reflexivity. Qed.

Lemma put_keeps_actions m : preserves actions (put m).
Proof. intros w. unfold put. destruct (broken _); reflexivity. Qed.

Lemma stylus_line_keeps_actions line : preserves actions (stylus_line line).
Proof.
  unfold stylus_line. apply preserves_bind; [apply log_keeps_actions |].
  intros _. destruct (negb _); [apply preserves_ret |].
  destruct (_ !! 1);
    [apply put_keeps_actions | apply preserves_raise].
Qed.

(** X18. Handler and proximity watcher agree on the stylus. When the
    constructor of the handler has returned, the proximity watcher run
    against the same system finds a stylus in its own listing too, and
    what it then starts with [Popen] is the proximity test of the very
    device the handler holds as its stylus; besides its listing, that is
    the only command it runs. *)
Theorem watcher_tests_handlers_stylus (E : env) (w w' w2 : world) :
  __init__ E w = (w', Ret tt) ->
  actions (fst (stylus_events_watcher E w2)) =
  actions w2 ++ [Popen ["xinput"; "test"; "-proximity"; stylus (hdl w')]].
Proof.
  intros Hinit.
  destruct (init_returns E w w' Hinit)
    as (out1 & out2 & _ & H2 & _ & _ & Hsty & _).
  unfold xinput_list, newline_char in *.
  unfold stylus_events_watcher. rewrite H2.
  unfold bind at 1. unfold try_except, next_stylus. rewrite Hsty.
  unfold ret at 1. unfold bind at 1. unfold log at 1.
  unfold bind at 1. unfold subprocess_Popen. unfold bind at 1.
  unfold issue at 1.
  destruct (popen_result E _) as [e | pid]; [reflexivity |].
  unfold ret at 1.
  match goal with
  | |- context [for_each ?l stylus_line ?w0] =>
      pose proof (preserves_for_each actions l stylus_line
                    stylus_line_keeps_actions w0) as Hk
  end.
  rewrite Hk. reflexivity.
Qed.

Lemma watcher_tests_handlers_stylus_witness :
  actions (fst (stylus_events_watcher convertible_env
                  (run_init blank_handler))) =
  actions (run_init blank_handler) ++
  [Popen ["xinput"; "test"; "-proximity";
          stylus (hdl (fst (__init__ convertible_env
                              (run_init blank_handler))))]].
Proof.
  apply (watcher_tests_handlers_stylus convertible_env
           (run_init blank_handler)
           (fst (__init__ convertible_env (run_init blank_handler)))
           (run_init blank_handler)).
  vm_compute. reflexivity.
Defined.

(** X19. The bus watcher passes on whatever orientation it is told, and
    the dispatcher does not survive one outside the tables. For a
    notification whose orientation is a string that is not a key of the
    tables, the callback puts the rotate event with that string on a
    working queue; the loop of [run], given that event, ends with KeyError
    after its two debug log calls, with no command issued. *)
Theorem unknown_orientation_ends_dispatcher (E : env) (source : pyval)
    (changedProperties : gmap string pyval)
    (invalidatedProperties : list pyval) (o : string) (w : world)
    (h : handler) (fuel : nat) :
  changedProperties !! "AccelerometerOrientation" = Some (PStr o) ->
  (forall x y, ~ In (o, x, y) orientation_table) ->
  broken (message_queue w) = None ->
  sensor_proxy_signal_handler source changedProperties
    invalidatedProperties w =
    (World (hdl w)
       (MQueue (items (message_queue w) ++ [("rotate", [PStr o])]) None)
       (logger w ++
          [LogRecord DEBUG "dbus signal: orientation change: %s" [PStr o]
             None])
       (actions w),
     Ret tt) /\
  run_loop (default_handler E) (S fuel) (run_with h [("rotate", [PStr o])]) =
    (World h (MQueue [] None)
       [LogRecord DEBUG "received event %s" [PStr "rotate"] None;
        LogRecord DEBUG "on rotate: %s" [PStr o] None]
       [],
     Raise KeyError).
Proof.
  intros Hc Hno Hq. split.
  - unfold sensor_proxy_signal_handler. rewrite Hc.
    unfold bind, log, put. cbn [message_queue]. rewrite Hq. reflexivity.
  - destruct (orientation_key_cases o) as [(x & y & Hin) | Hnone];
      [exfalso; exact (Hno x y Hin) |].
    rewrite run_loop_step. cbn [run_with message_queue items].
    unfold dispatch, bind, log. cbn [String.eqb Ascii.eqb Bool.eqb].
    cbn [default_handler call_on_rotate].
    unfold DefaultEventHandler.on_rotate, bind, log, dict_get.
    rewrite Hnone. reflexivity.
Qed.

Lemma unknown_orientation_ends_dispatcher_witness :
  sensor_proxy_signal_handler (PStr "net.hadess.SensorProxy")
    (<["AccelerometerOrientation" := PStr "undefined"]> ∅) []
    (run_init sample_handler) =
    (World (hdl (run_init sample_handler))
       (MQueue (items (message_queue (run_init sample_handler)) ++
                  [("rotate", [PStr "undefined"])]) None)
       (logger (run_init sample_handler) ++
          [LogRecord DEBUG "dbus signal: orientation change: %s"
             [PStr "undefined"] None])
       (actions (run_init sample_handler)),
     Ret tt) /\
  run_loop (default_handler quiet_env) 1
    (run_with sample_handler [("rotate", [PStr "undefined"])]) =
    (World sample_handler (MQueue [] None)
       [LogRecord DEBUG "received event %s" [PStr "rotate"] None;
        LogRecord DEBUG "on rotate: %s" [PStr "undefined"] None]
       [],
     Raise KeyError).
Proof.
  apply (unknown_orientation_ends_dispatcher quiet_env
           (PStr "net.hadess.SensorProxy")
           (<["AccelerometerOrientation" := PStr "undefined"]> ∅) []
           "undefined" (run_init sample_handler) sample_handler 0).
  - vm_compute. reflexivity.
  - intros x y [H | [H | [H | [H | []]]]]; discriminate H.
  - reflexivity.
Defined.

Lemma mode_change_runs (E : env) (w : world) :
  (forall argv, call_raises E argv = None) ->
  exists w1,
    call_on_mode_change (default_handler E) w = (w1, Ret tt) /\
    message_queue w1 = message_queue w /\
    mode_of w1 = negb (mode_of w).
Proof.
  intros Hcalls. cbn [default_handler call_on_mode_change].
  unfold DefaultEventHandler.on_mode_change.
  rewrite on_mode_change_runs_hook. unfold mode_of.
  destruct (is_tablet (hdl w)); cbn [negb].
  - rewrite laptop_mode_runs
      by (unfold enable_commands; repeat constructor; apply Hcalls).
    eexists. split; [reflexivity |]. split; reflexivity.
  - rewrite tablet_mode_runs
      by (unfold disable_commands; repeat constructor; apply Hcalls).
    eexists. split; [reflexivity |].
    cbn [hdl message_queue]. destruct (popen_result E onboard_command);
      split; reflexivity.
Qed.

Lemma dispatch_mode_change_runs (E : env) (w : world) :
  (forall argv, call_raises E argv = None) ->
  exists w1,
    dispatch (default_handler E) ("mode-change", []) w = (w1, Ret tt) /\
    message_queue w1 = message_queue w /\
    mode_of w1 = negb (mode_of w).
Proof.
  intros Hcalls. unfold dispatch. unfold bind at 1. unfold log at 1.
  cbn [String.eqb Ascii.eqb Bool.eqb].
  match goal with
  | |- context [call_on_mode_change (default_handler E) ?w0] =>
      destruct (mode_change_runs E w0 Hcalls) as (w1 & Hr & Hmq & Hm)
  end.
  exists w1. split; [exact Hr |]. split; [exact Hmq | exact Hm].
Qed.

Lemma run_loop_mode_changes (E : env) :
  (forall argv, call_raises E argv = None) ->
  forall n fuel w,
    items (message_queue w) = repeat ("mode-change", []) n ->
    n < fuel ->
    snd (run_loop (default_handler E) fuel w) = Block /\
    mode_of (fst (run_loop (default_handler E) fuel w)) =
      xorb (Nat.odd n) (mode_of w) /\
    items (message_queue (fst (run_loop (default_handler E) fuel w))) = [].
Proof.
  intros Hcalls. induction n as [| n IH]; intros fuel w Hq Hlt;
    (destruct fuel as [| fuel]; [lia |]); rewrite run_loop_step, Hq.
  - simpl. rewrite Hq. now destruct (mode_of w).
  - cbn [repeat].
    destruct (dispatch_mode_change_runs E
                (World (hdl w)
                   (MQueue (repeat ("mode-change", []) n)
                      (broken (message_queue w)))
                   (logger w) (actions w)) Hcalls)
      as (w1 & Hd & Hmq & Hm).
    rewrite Hd.
    destruct (IH fuel w1) as (Hres & Hmode & Hitems).
    + rewrite Hmq. reflexivity.
    + lia.
    + split; [exact Hres |]. split; [| exact Hitems].
      rewrite Hmode, Hm. unfold mode_of. cbn [hdl].
      rewrite Nat.odd_succ, <- Nat.negb_odd.
      destruct (Nat.odd n), (is_tablet (hdl w)); reflexivity.
Qed.

Lemma mode_changes_repeat (stream : bytes) :
  mode_changes stream =
  repeat ("mode-change", [])
    (length (List.filter (startswith EV_TABLET_MODE)
               (complete_records stream))).
Proof.
  unfold mode_changes.
  induction (List.filter _ _) as [| x l IH]; simpl; [| rewrite IH];
    reflexivity.
Qed.

Lemma filter_length_le {A} (f : A -> bool) (l : list A) :
  length (List.filter f l) <= length l.
Proof.
  induction l as [| x l IH]; simpl; [lia |].
  destruct (f x); simpl; lia.
Qed.

(** X20. From the socket to the mode. With every command executable, when
    the events the socket watcher puts for a byte stream (delivered in any
    chunks) are what the dispatcher finds on its queue, the loop handles
    them all and waits for more, and the mode of the handler has changed
    if and only if the stream holds an odd number of complete records that
    start with [EV_TABLET_MODE]. *)
Theorem records_toggle_mode (E : env) (cs : list bytes) (fuel : nat)
    (h : handler) :
  (forall argv, call_raises E argv = None) ->
  length cs + length (concat cs) < fuel ->
  snd (run_loop (default_handler E) fuel
         (run_with h
            (items (message_queue
                      (fst (acpi_events_watcher fuel
                              (inr (StreamSocket cs Waits))
                              (run_init h))))))) = Block /\
  mode_of (fst (run_loop (default_handler E) fuel
                  (run_with h
                     (items (message_queue
                               (fst (acpi_events_watcher fuel
                                       (inr (StreamSocket cs Waits))
                                       (run_init h)))))))) =
  xorb (Nat.odd (length (List.filter (startswith EV_TABLET_MODE)
                           (complete_records (concat cs)))))
    (is_tablet h).
Proof.
  intros Hcalls Hf.
  pose proof (complete_records_length (concat cs)) as Hrec.
  pose proof (filter_length_le (startswith EV_TABLET_MODE)
                (complete_records (concat cs))) as Hfil.
  unfold acpi_events_watcher.
  destruct (acpi_events_loop_stream fuel cs [] fuel (run_init h) Waits)
    as [_ Hmq]; [reflexivity | lia | simpl; lia |].
  rewrite Hmq. cbn [items run_init message_queue app].
  rewrite mode_changes_repeat.
  destruct (run_loop_mode_changes E Hcalls
              (length (List.filter (startswith EV_TABLET_MODE)
                         (complete_records (concat cs))))
              fuel
              (run_with h
                 (repeat ("mode-change", [])
                    (length (List.filter (startswith EV_TABLET_MODE)
                               (complete_records (concat cs)))))))
    as (Hres & Hmode & _).
  - reflexivity.
  - lia.
  - split; [exact Hres |]. rewrite Hmode. reflexivity.
Qed.

Lemma records_toggle_mode_witness :
  snd (run_loop (default_handler quiet_env) 100
         (run_with sample_handler
            (items (message_queue
                      (fst (acpi_events_watcher 100
                              (inr (StreamSocket sample_chunks Waits))
                              (run_init sample_handler))))))) = Block /\
  mode_of (fst (run_loop (default_handler quiet_env) 100
                  (run_with sample_handler
                     (items (message_queue
                               (fst (acpi_events_watcher 100
                                       (inr (StreamSocket sample_chunks
                                               Waits))
                                       (run_init sample_handler)))))))) =
  xorb (Nat.odd (length (List.filter (startswith EV_TABLET_MODE)
                           (complete_records (concat sample_chunks)))))
    (is_tablet sample_handler).
Proof.
  apply (records_toggle_mode quiet_env sample_chunks 100 sample_handler).
  - reflexivity.
  - vm_compute. lia.
Defined.

(** ** More on the handler and the proximity watcher *)

(** X21. A mode change that fails has still changed the mode. In laptop
    mode, when the first disabling command cannot be executed and raises
    [e], [on_mode_change] raises [e] with the flag already set to tablet:
    that one command is all that was issued, the keyboard was not started
    and the handle is as before. *)
Theorem failed_transition_still_flips (E : env) (w : world) (e : exn) :
  is_tablet (hdl w) = false ->
  call_raises E ["xinput"; "disable"; trackpoint (hdl w)] = Some e ->
  call_on_mode_change (default_handler E) w =
  (World
     (Handler true (wacom (hdl w)) (stylus (hdl w)) (finger_touch (hdl w))
        (trackpoint (hdl w)) (touchpad (hdl w)) (onboard (hdl w)))
     (message_queue w)
     (logger w ++ [LogRecord DEBUG "on tablet mode" [] None])
     (actions w ++ [Call ["xinput"; "disable"; trackpoint (hdl w)]]),
   Raise e).
Proof.
  intros Hmode Hcall. cbn [default_handler call_on_mode_change].
  unfold DefaultEventHandler.on_mode_change.
  rewrite on_mode_change_runs_hook, Hmode. cbn [negb].
  unfold DefaultEventHandler.on_tablet_mode, for_each, subprocess_call,
    try_except, bind, log, issue, get_self, ret, raise.
  cbn [hdl message_queue logger actions trackpoint touchpad].
  rewrite Hcall. reflexivity.
Qed.

Lemma failed_transition_still_flips_witness :
  call_on_mode_change
    (default_handler
       (Env (fun argv => Some (OSError argv)) (fun _ => inr 1)
          (fun _ => None) (fun _ => inr "") (fun _ => [])))
    (run_init sample_handler) =
  (World
     (Handler true (wacom (hdl (run_init sample_handler)))
        (stylus (hdl (run_init sample_handler)))
        (finger_touch (hdl (run_init sample_handler)))
        (trackpoint (hdl (run_init sample_handler)))
        (touchpad (hdl (run_init sample_handler)))
        (onboard (hdl (run_init sample_handler))))
     (message_queue (run_init sample_handler))
     (logger (run_init sample_handler) ++
        [LogRecord DEBUG "on tablet mode" [] None])
     (actions (run_init sample_handler) ++
        [Call ["xinput"; "disable";
               trackpoint (hdl (run_init sample_handler))]]),
   Raise (OSError ["xinput"; "disable";
                   trackpoint (hdl (run_init sample_handler))])).
Proof.
  apply (failed_transition_still_flips
           (Env (fun argv => Some (OSError argv)) (fun _ => inr 1)
              (fun _ => None) (fun _ => inr "") (fun _ => []))
           (run_init sample_handler)).
  - reflexivity.
  - reflexivity.
Defined.

Lemma bytes_split_cons (sep : byte) (k : option nat) (b : bytes) :
  exists p ps, bytes_split sep k b = p :: ps.
Proof.
  revert k. induction b as [| c r IH]; intros k; simpl.
  - eauto.
  - destruct (Byte.eqb c sep && may_split k); [eauto |].
    destruct (IH k) as (p & ps & ->). eauto.
Qed.

Lemma bytes_split_second (sep : byte) (b : bytes) :
  bytes_in sep b = true ->
  exists s, bytes_split sep None b !! 1 = Some s.
Proof.
  induction b as [| c r IH]; simpl; intros Hin.
  - discriminate.
  - destruct (Byte.eqb c sep) eqn:Hc; simpl.
    + destruct (bytes_split_cons sep None r) as (p & ps & ->). eauto.
    + destruct (IH Hin) as [s Hs].
      destruct (bytes_split sep None r) as [| p [| q ps]];
        try discriminate. eauto.
Qed.

Lemma stylus_line_runs (line : bytes) (w : world) :
  broken (message_queue w) = None ->
  startswith proximity_token line = false \/ bytes_in sp line = true ->
  exists w' added,
    stylus_line line w = (w', Ret tt) /\
    broken (message_queue w') = None /\
    items (message_queue w') = items (message_queue w) ++ added /\
    Forall (fun m : msg => fst m = "stylus-event") added /\
    length added = (if startswith proximity_token line then 1 else 0) /\
    actions w' = actions w.
Proof.
  intros Hq Hline. unfold stylus_line, bind, log. fold proximity_token.
  destruct (startswith proximity_token line) eqn:Hs; cbn [negb].
  - destruct Hline as [Hf | Hsp]; [discriminate |].
    destruct (bytes_split_second sp line Hsp) as [s Hsec]. rewrite Hsec.
    unfold put. cbn [message_queue]. rewrite Hq.
    eexists. exists [("stylus-event", [PBytes s])].
    split; [reflexivity |]. simpl. repeat split. repeat constructor.
  - eexists. exists []. split; [reflexivity |]. simpl.
    rewrite app_nil_r. repeat split; auto.
Qed.

Lemma stylus_lines_run : forall (lines : list bytes) (w : world),
  broken (message_queue w) = None ->
  Forall (fun line => startswith proximity_token line = false \/
                      bytes_in sp line = true) lines ->
  exists w' added,
    for_each lines stylus_line w = (w', Ret tt) /\
    broken (message_queue w') = None /\
    items (message_queue w') = items (message_queue w) ++ added /\
    Forall (fun m : msg => fst m = "stylus-event") added /\
    length added =
      length (List.filter (startswith proximity_token) lines) /\
    actions w' = actions w.
Proof.
  induction lines as [| line lines IH]; intros w Hq Hall.
  - exists w, []. simpl. rewrite app_nil_r. repeat split; auto.
  - inversion Hall as [| ? ? Hline Hrest]; subst.
    destruct (stylus_line_runs line w Hq Hline)
      as (w1 & a1 & Hr1 & Hq1 & Hi1 & Ht1 & Hl1 & Ha1).
    destruct (IH w1 Hq1 Hrest)
      as (w2 & a2 & Hr2 & Hq2 & Hi2 & Ht2 & Hl2 & Ha2).
    exists w2, (a1 ++ a2). cbn [for_each]. unfold bind. rewrite Hr1, Hr2.
    split; [reflexivity |]. split; [exact Hq2 |].
    split; [rewrite Hi2, Hi1, <- app_assoc; reflexivity |].
    split; [apply Forall_app; auto |].
    split; [| congruence].
    rewrite length_app, Hl1, Hl2. cbn [List.filter].
    destruct (startswith proximity_token line); simpl; lia.
Qed.

Lemma stylus_watcher_runs (E : env) (out sty : string) (pid : nat)
    (w : world) :
  check_output E xinput_list = inr out ->
  List.find (str_in "stylus") (str_split newline_char out) = Some sty ->
  popen_result E ["xinput"; "test"; "-proximity"; sty] = inr pid ->
  Forall (fun line => startswith proximity_token line = false \/
                      bytes_in sp line = true)
    (popen_stdout E ["xinput"; "test"; "-proximity"; sty]) ->
  broken (message_queue w) = None ->
  exists w' added,
    stylus_events_watcher E w = (w', Ret tt) /\
    items (message_queue w') = items (message_queue w) ++ added /\
    Forall (fun m : msg => fst m = "stylus-event") added /\
    length added =
      length (List.filter (startswith proximity_token)
                (popen_stdout E ["xinput"; "test"; "-proximity"; sty])).
Proof.
  unfold xinput_list, newline_char. intros Hout Hfind Hpopen Hlines Hq.
  unfold stylus_events_watcher. rewrite Hout.
  unfold bind, try_except, next_stylus. rewrite Hfind.
  unfold ret, log, subprocess_Popen, bind, issue. rewrite Hpopen.
  unfold ret. cbn [hdl message_queue logger actions].
  match goal with
  | |- context [for_each ?l stylus_line ?w0] =>
      destruct (stylus_lines_run l w0 Hq Hlines)
        as (w' & added & Hr & _ & Hi & Ht & Hl & _)
  end.
  exists w', added. rewrite Hr. auto.
Qed.

Lemma process_wrapper_returns (name : string) (target : target_type)
    (args : list pyval) (kwargs : gmap string pyval) (w w1 : world) :
  target args kwargs
    (World (hdl w) (message_queue w)
       (logger w ++ [LogRecord INFO "%s started" [PStr name] None])
       (actions w)) = (w1, Ret tt) ->
  process_wrapper name target (args, kwargs) w = (w1, Ret tt).
Proof.
  intros Ht. unfold process_wrapper, try_except, bind, log at 1.
  rewrite Ht. reflexivity.
Qed.

(** X22. A watcher that ends by returning is not reported. When a stylus
    is listed, the proximity test starts, and every line it prints either
    does not start with [proximity] or contains a space, the wrapped
    proximity watcher puts one stylus event for each line that starts with
    [proximity], nothing else, and at the end of the pipe the wrapper
    returns normally without an exit event. *)
Theorem pipe_end_is_silent (E : env) (name out sty : string) (pid : nat)
    (w : world) :
  check_output E xinput_list = inr out ->
  List.find (str_in "stylus") (str_split newline_char out) = Some sty ->
  popen_result E ["xinput"; "test"; "-proximity"; sty] = inr pid ->
  Forall (fun line => startswith proximity_token line = false \/
                      bytes_in sp line = true)
    (popen_stdout E ["xinput"; "test"; "-proximity"; sty]) ->
  broken (message_queue w) = None ->
  exists added,
    snd (process_wrapper name (fun _ _ => stylus_events_watcher E)
           ([], ∅) w) = Ret tt /\
    items (message_queue
             (fst (process_wrapper name (fun _ _ => stylus_events_watcher E)
                     ([], ∅) w))) = items (message_queue w) ++ added /\
    Forall (fun m : msg => fst m = "stylus-event") added /\
    length added =
      length (List.filter (startswith proximity_token)
                (popen_stdout E ["xinput"; "test"; "-proximity"; sty])).
Proof.
  intros Hout Hfind Hpopen Hlines Hq.
  destruct (stylus_watcher_runs E out sty pid
              (World (hdl w) (message_queue w)
                 (logger w ++ [LogRecord INFO "%s started" [PStr name] None])
                 (actions w)) Hout Hfind Hpopen Hlines Hq)
    as (w' & added & Hr & Hi & Ht & Hl).
  exists added.
  rewrite (process_wrapper_returns name
             (fun _ _ => stylus_events_watcher E) [] ∅ w w' Hr).
  cbn [fst snd]. auto.
Qed.

Lemma pipe_end_is_silent_witness :
  exists added,
    snd (process_wrapper "stylus_events_watcher"
           (fun _ _ => stylus_events_watcher convertible_env)
           ([], ∅) (run_init sample_handler)) = Ret tt /\
    items (message_queue
             (fst (process_wrapper "stylus_events_watcher"
                     (fun _ _ => stylus_events_watcher convertible_env)
                     ([], ∅) (run_init sample_handler)))) =
      items (message_queue (run_init sample_handler)) ++ added /\
    Forall (fun m : msg => fst m = "stylus-event") added /\
    length added =
      length (List.filter (startswith proximity_token)
                (popen_stdout convertible_env
                   ["xinput"; "test"; "-proximity"; "Wacom Pen stylus"])).
Proof.
  apply (pipe_end_is_silent convertible_env "stylus_events_watcher"
           (unlines ["Virtual core pointer"; "Wacom Pen stylus";
                     "Wacom Finger touch"; "TPPS/2 TrackPoint";
                     "SynPS/2 TouchPad"; ""])
           "Wacom Pen stylus" 4242 (run_init sample_handler)).
  - vm_compute. reflexivity.
  - vm_compute. reflexivity.
  - reflexivity.
  - cbn [popen_stdout convertible_env map].
    constructor; [right; reflexivity |].
    constructor; [left; reflexivity |].
    constructor; [right; reflexivity |].
    constructor.
  - reflexivity.
Defined.

(** What the sample test prints gives two stylus events, in and out. *)
Example sample_proximity_events :
  items (message_queue
           (fst (stylus_events_watcher convertible_env
                   (run_init sample_handler)))) =
  [("stylus-event", [PBytes (list_byte_of_string "in")]);
   ("stylus-event", [PBytes (list_byte_of_string "out")])].
Proof. vm_compute. reflexivity. Qed.
